(** * ScienceNewsResearch-back: assignment balancing and milestone lineage

    A shallow embedding of the hand-written logic of [cq/views.py] and
    [cq/serializers.py]: the ORM tables are lists of rows in the iteration
    order of the backing collection, a queryset is a [filter] over such a
    list, and a view is a function in a state-and-exception monad over the
    database.  An exception leaves the rows written before it in place: the
    views open no transaction.

    [TakeBindMilestoneSerializer], [MileStoneSerializer] and
    [ResponseSerializer] stand in [cq/serializers.py] between a pair of
    triple quotes; their text is embedded here as it is written. *)

From Stdlib Require Import String List ZArith Bool Arith Lia.
Import ListNotations.

Set Implicit Arguments.

(** ** Rows

    [cq/models.py] is not part of the sources at hand.  The columns below are
    the ones the views and serializers read or write; nullable columns are
    [option]s. *)

Definition pk := nat.
Definition datetime := Z.

Record Research := mkResearch { research_id : pk }.

Record Article := mkArticle { article_id : pk; article_research : pk }.

Record Sentence := mkSentence { sentence_id : pk; sentence_article : pk }.

Record User := mkUser { user_id : pk; user_username : string }.

Record Profile := mkProfile {
  profile_id : pk;
  profile_user : pk;
  profile_article : option pk
}.

Record Take := mkTake {
  take_id : pk;
  take_user : pk;
  take_article : pk;
  take_question : pk;
  take_removed_at : option datetime
}.

Record Milestone := mkMilestone {
  milestone_id : pk;
  milestone_user : pk;
  milestone_take : pk;
  milestone_found : option datetime;
  milestone_copied_from : option pk;
  milestone_response_at : datetime
}.

Record Response := mkResponse {
  response_id : pk;
  response_user : pk;
  response_take : pk;
  response_milestone : pk;
  response_sentence : pk
}.

(** The database: one list per table, and the next primary key of each
    table the code inserts into. *)
Record DB := mkDB {
  researches : list Research;
  articles : list Article;
  sentences : list Sentence;
  users : list User;
  profiles : list Profile;
  takes : list Take;
  milestones : list Milestone;
  responses : list Response;
  next_user : pk;
  next_profile : pk;
  next_take : pk;
  next_milestone : pk;
  next_response : pk
}.

(** ** Python's [functools.reduce] without an initial value

    [None] stands for the [TypeError] that [reduce] raises on an empty
    sequence. *)
Definition reduce {A : Type} (f : A -> A -> A) (l : list A) : option A :=
  match l with
  | [] => None
  | x :: xs => Some (fold_left f xs x)
  end.

Definition is_None {A : Type} (o : option A) : bool :=
  match o with None => true | Some _ => false end.

(** ** The Milestone Lineage Resolver

    The computation of [latest_milestone] in
    [TakeBindMilestoneViewSet.suggestions]. *)
Module Resolver.

(** [Take.objects.exclude(article=take.article)
        .filter(question=take.question)] *)
Definition related_takes (db : DB) (take : Take) : list Take :=
  filter (fun t => take_question t =? take_question take)
    (filter (fun t => negb (take_article t =? take_article take)) (takes db)).

(** [x.milestones]: the reverse side of [Milestone.take]. *)
Definition take_milestones (db : DB) (x : Take) : list Milestone :=
  filter (fun m => milestone_take m =? take_id x) (milestones db).

(** [m.responses]: the reverse side of [Response.milestone]. *)
Definition milestone_responses (db : DB) (m : Milestone) : list Response :=
  filter (fun r => response_milestone r =? milestone_id m) (responses db).

(** [.exclude(responses=None)] drops a milestone that has no response. *)
Definition has_responses (db : DB) (m : Milestone) : bool :=
  negb (Nat.eqb (length (milestone_responses db m)) 0).

(** [x.milestones.filter(copied_from=None).exclude(found=None)
        .exclude(responses=None)] *)
Definition eligible_milestones (db : DB) (x : Take) : list Milestone :=
  filter (has_responses db)
    (filter (fun m => negb (is_None (milestone_found m)))
       (filter (fun m => is_None (milestone_copied_from m))
          (take_milestones db x))).

(** [list(itertools.chain.from_iterable(milestones))] *)
Definition milestones_flatten (db : DB) (take : Take) : list Milestone :=
  concat (map (eligible_milestones db) (related_takes db take)).

(** [lambda x, y: y if x.response_at < y.response_at else x] *)
Definition later (x y : Milestone) : Milestone :=
  if (milestone_response_at x <? milestone_response_at y)%Z then y else x.

Definition latest_milestone (db : DB) (take : Take) : option Milestone :=
  if Nat.eqb (length (milestones_flatten db take)) 0 then None
  else reduce later (milestones_flatten db take).

End Resolver.

(** ** Exceptions, replies and the view monad *)

(** A Python exception: the name of its class and its message. *)
Inductive exn := PyExn (cls : string) (msg : string).

Inductive result (A : Type) :=
| Ok (a : A)
| Raise (e : exn).
Arguments Ok {A} a.
Arguments Raise {A} e.

(** What a view hands back to the framework when it returns normally. *)
Inductive Reply (A : Type) :=
| JsonResponse (errors : list string) (status : nat)
| HTTPResponse (data : A).
Arguments JsonResponse {A} errors status.
Arguments HTTPResponse {A} data.

(** A computation reads and writes the database and may raise; the
    database reached when the exception was raised is kept. *)
Definition M (A : Type) := DB -> result A * DB.

Definition ret {A : Type} (a : A) : M A := fun db => (Ok a, db).

Definition raise {A : Type} (e : exn) : M A := fun db => (Raise e, db).

Definition bind {A B : Type} (c : M A) (k : A -> M B) : M B :=
  fun db =>
    match c db with
    | (Ok a, db') => k a db'
    | (Raise e, db') => (Raise e, db')
    end.

Definition get : M DB := fun db => (Ok db, db).

Definition put (db' : DB) : M unit := fun _ => (Ok tt, db').

Notation "x <- c ;; k" := (bind c (fun x => k))
  (at level 61, c at next level, right associativity).
Notation "c ;;; k" := (bind c (fun _ => k))
  (at level 61, right associativity).

Definition ValidationError (msg : string) : exn := PyExn "ValidationError" msg.
Definition Http404 : exn := PyExn "Http404" "Not found.".
Definition reduce_TypeError : exn :=
  PyExn "TypeError" "reduce() of empty sequence with no initial value".
Definition RelatedObjectDoesNotExist : exn :=
  PyExn "RelatedObjectDoesNotExist" "User has no profile.".

(** ** Row insertion and update

    Each [save()] of a new row draws the table's next primary key. *)
Definition insert_take (user article question : pk)
    (removed_at : option datetime) : M Take :=
  fun db =>
    let t := mkTake (next_take db) user article question removed_at in
    (Ok t,
     mkDB (researches db) (articles db) (sentences db) (users db)
       (profiles db) (takes db ++ [t]) (milestones db) (responses db)
       (next_user db) (next_profile db) (S (next_take db))
       (next_milestone db) (next_response db)).

Definition insert_milestone (user take : pk) (found : option datetime)
    (copied_from : option pk) (response_at : datetime) : M Milestone :=
  fun db =>
    let m := mkMilestone (next_milestone db) user take found copied_from
               response_at in
    (Ok m,
     mkDB (researches db) (articles db) (sentences db) (users db)
       (profiles db) (takes db) (milestones db ++ [m]) (responses db)
       (next_user db) (next_profile db) (next_take db)
       (S (next_milestone db)) (next_response db)).

Definition insert_response (user take milestone sentence : pk) : M Response :=
  fun db =>
    let r := mkResponse (next_response db) user take milestone sentence in
    (Ok r,
     mkDB (researches db) (articles db) (sentences db) (users db)
       (profiles db) (takes db) (milestones db) (responses db ++ [r])
       (next_user db) (next_profile db) (next_take db)
       (next_milestone db) (S (next_response db))).

(** Modelled from the spec: [cq/models.py], which would say how a [Profile]
    comes to exist for a new [User], is missing.  Section 3 has one Profile
    per User, optionally linked to an Article: saving a new user inserts the
    user row and a profile row with no article. *)
Definition insert_user (username : string) : M User :=
  fun db =>
    let u := mkUser (next_user db) username in
    let p := mkProfile (next_profile db) (user_id u) None in
    (Ok u,
     mkDB (researches db) (articles db) (sentences db) (users db ++ [u])
       (profiles db ++ [p]) (takes db) (milestones db) (responses db)
       (S (next_user db)) (S (next_profile db)) (next_take db)
       (next_milestone db) (next_response db)).

(** [serializer.save()] on an instance: the in-memory row takes the new
    [take] and is written back under its key. *)
Definition update_milestone_take (instance : Milestone) (take : pk)
    : M Milestone :=
  fun db =>
    let m' := mkMilestone (milestone_id instance) (milestone_user instance)
                take (milestone_found instance)
                (milestone_copied_from instance)
                (milestone_response_at instance) in
    (Ok m',
     mkDB (researches db) (articles db) (sentences db) (users db)
       (profiles db) (takes db)
       (map (fun m => if milestone_id m =? milestone_id instance then m' else m)
          (milestones db))
       (responses db)
       (next_user db) (next_profile db) (next_take db)
       (next_milestone db) (next_response db)).

(** [p_serializer.save()] on the profile instance: the row takes the new
    [article] and [user] and is written back under its key. *)
Definition update_profile (instance : Profile) (article : option pk)
    (user : pk) : M Profile :=
  fun db =>
    let p' := mkProfile (profile_id instance) user article in
    (Ok p',
     mkDB (researches db) (articles db) (sentences db) (users db)
       (map (fun p => if profile_id p =? profile_id instance then p' else p)
          (profiles db))
       (takes db) (milestones db) (responses db)
       (next_user db) (next_profile db) (next_take db)
       (next_milestone db) (next_response db)).

(** A [PrimaryKeyRelatedField] accepts a key that some row of the table
    carries. *)
Definition pk_exists {R : Type} (id_of : R -> pk) (table : list R) (k : pk)
    : bool :=
  existsb (fun r => id_of r =? k) table.

(** ** The views of [TakeBindMilestoneViewSet] *)
Module TakeBindMilestoneViewSet.

(** [self.get_object()]: the take with that key, or a 404. *)
Definition get_object (key : pk) : M Take :=
  fun db =>
    match find (fun t => take_id t =? key) (takes db) with
    | Some t => (Ok t, db)
    | None => (Raise Http404, db)
    end.

(** The body of a [renew_milestone] request: the [sentences] entry, which
    may be missing, and the milestone columns a client may send. *)
Record RenewData := mkRenewData {
  data_sentences : option (list pk);
  data_found : option datetime;
  data_copied_from : option pk
}.

(** [request.data.pop('sentences', [])] *)
Definition sentences_of (data : RenewData) : list pk :=
  match data_sentences data with
  | Some l => l
  | None => []
  end.

(** One entry of [response_form]. *)
Record ResponseForm := mkResponseForm {
  form_take : pk;
  form_milestone : pk;
  form_sentence : pk
}.

(** [ResponseSerializer(data=response_form, many=True).is_valid()]: every
    entry's three keys must resolve. *)
Definition response_form_is_valid (db : DB) (form : list ResponseForm) : bool :=
  forallb (fun e =>
             pk_exists take_id (takes db) (form_take e)
             && pk_exists milestone_id (milestones db) (form_milestone e)
             && pk_exists sentence_id (sentences db) (form_sentence e))
    form.

(** [r_serializer.save(user=...)]: one insertion per entry, in order. *)
Fixpoint save_responses (user : pk) (form : list ResponseForm)
    : M (list Response) :=
  match form with
  | [] => ret []
  | e :: rest =>
      r <- insert_response user (form_take e) (form_milestone e)
             (form_sentence e) ;;
      rs <- save_responses user rest ;;
      ret (r :: rs)
  end.

Section Views.

(** [MileStoneSerializer(data=request.data).is_valid()], the generic
    validation of the milestone columns of the request. *)
Variable milestone_is_valid : DB -> pk -> RenewData -> bool.

(** [renew_milestone(self, request, pk)], with [request.user] and the clock
    passed in. *)
Definition renew_milestone (user : pk) (now : datetime) (data : RenewData)
    (key : pk) : M (Reply (Milestone * list Response)) :=
  take <- get_object key ;;
  let sentences := sentences_of data in
  db0 <- get ;;
  (if milestone_is_valid db0 (take_id take) data then ret tt
   else raise (ValidationError "milestone")) ;;;
  milestone <- insert_milestone user (take_id take) (data_found data)
                 (data_copied_from data) now ;;
  let response_form :=
    map (fun sentence_id =>
           mkResponseForm (take_id take) (milestone_id milestone) sentence_id)
      sentences in
  db1 <- get ;;
  (if response_form_is_valid db1 response_form then ret tt
   else raise (ValidationError "responses")) ;;;
  _ <- save_responses user response_form ;;
  db2 <- get ;;
  (* MileStoneSerializer(milestone, data={'take': take.id, 'responses': ...}):
     [responses] is read-only, so only [take] is validated and written. *)
  (if pk_exists take_id (takes db2) (take_id take) then ret tt
   else raise (ValidationError "take")) ;;;
  milestone' <- update_milestone_take milestone (take_id take) ;;
  db3 <- get ;;
  ret (HTTPResponse (milestone', Resolver.milestone_responses db3 milestone')).

End Views.

(** [suggestions(self, request, pk)] *)
Definition suggestions (key : pk) : M (Reply (list Response)) :=
  take <- get_object key ;;
  db <- get ;;
  let responses :=
    match Resolver.latest_milestone db take with
    | None => []
    | Some latest_milestone => Resolver.milestone_responses db latest_milestone
    end in
  ret (HTTPResponse responses).

(** The validated fields of an update of a take; a field that the request
    leaves out is [None], and [removed_at] may be sent as null. *)
Record TakeData := mkTakeData {
  td_article : option pk;
  td_question : option pk;
  td_removed_at : option (option datetime)
}.

(** [serializer.save()] on a take instance: the validated fields are set on
    the in-memory row, which is written back under its key. *)
Definition save_take (instance : Take) (validated_data : TakeData) : M Take :=
  fun db =>
    let t' :=
      mkTake (take_id instance) (take_user instance)
        (match td_article validated_data with
         | Some a => a
         | None => take_article instance
         end)
        (match td_question validated_data with
         | Some q => q
         | None => take_question instance
         end)
        (match td_removed_at validated_data with
         | Some r => r
         | None => take_removed_at instance
         end) in
    (Ok t',
     mkDB (researches db) (articles db) (sentences db) (users db)
       (profiles db)
       (map (fun t => if take_id t =? take_id instance then t' else t)
          (takes db))
       (milestones db) (responses db)
       (next_user db) (next_profile db) (next_take db)
       (next_milestone db) (next_response db)).

(** [perform_update(self, serializer)]: [is_removed] is the truth value of
    [request.data.get('remove')]; the keyword argument of
    [serializer.save(removed_at=now())] goes over the validated field. *)
Definition perform_update (is_removed : bool) (now : datetime)
    (instance : Take) (validated_data : TakeData) : M Take :=
  if is_removed then
    save_take instance
      (mkTakeData (td_article validated_data) (td_question validated_data)
         (Some (Some now)))
  else save_take instance validated_data.

End TakeBindMilestoneViewSet.

(** ** Take creation ([TakeBindMilestoneSerializer.create]) *)
Module TakeBindMilestoneSerializer.

(** The validated fields of a new take. *)
Record ValidatedData := mkValidatedData {
  vd_article : pk;
  vd_question : pk;
  vd_removed_at : option datetime
}.

(** [Take.objects.filter(article=...).filter(question=...)], under the
    comment "Check if exist `Take` related to both same `Article` and
    `Question`". *)
Definition related_takes (db : DB) (validated_data : ValidatedData)
    : list Take :=
  filter (fun t => take_question t =? vd_question validated_data)
    (filter (fun t => take_article t =? vd_article validated_data) (takes db)).

(** [x.milestones.filter(copied_from=None).exclude(found=None)] *)
Definition source_milestones (db : DB) (x : Take) : list Milestone :=
  filter (fun m => negb (is_None (milestone_found m)))
    (filter (fun m => is_None (milestone_copied_from m))
       (Resolver.take_milestones db x)).

Definition milestones_flatten (db : DB) (validated_data : ValidatedData)
    : list Milestone :=
  concat (map (source_milestones db) (related_takes db validated_data)).

Definition latest_milestone (db : DB) (validated_data : ValidatedData)
    : option Milestone :=
  if Nat.eqb (length (milestones_flatten db validated_data)) 0 then None
  else reduce Resolver.later (milestones_flatten db validated_data).

(** The loop over [latest_milestone.responses.all()]: each row is saved
    again with [pk = None], the new milestone and the new user; its other
    columns stay. *)
Fixpoint copy_responses (user : pk) (milestone : Milestone)
    (source : list Response) : M unit :=
  match source with
  | [] => ret tt
  | response :: rest =>
      insert_response user (response_take response) (milestone_id milestone)
        (response_sentence response) ;;;
      copy_responses user milestone rest
  end.

(** [create(self, validated_data)], with [self.context['request'].user] and
    the clock passed in. *)
Definition create (user : pk) (now : datetime)
    (validated_data : ValidatedData) : M Take :=
  db <- get ;;
  match latest_milestone db validated_data with
  | Some latest =>
      take <- insert_take user (vd_article validated_data)
                (vd_question validated_data) (vd_removed_at validated_data) ;;
      milestone <- insert_milestone user (take_id take)
                     (milestone_found latest) (Some (milestone_id latest))
                     now ;;
      db' <- get ;;
      copy_responses user milestone
        (Resolver.milestone_responses db' latest) ;;;
      ret take
  | None =>
      take <- insert_take user (vd_article validated_data)
                (vd_question validated_data) (vd_removed_at validated_data) ;;
      insert_milestone user (take_id take) None None now ;;;
      ret take
  end.

End TakeBindMilestoneSerializer.

(** ** The representation of a user ([UserSerializer]) *)
Module UserSerializer.

Definition profile_TypeError : exn :=
  PyExn "TypeError" "'Profile' object is not iterable".

(** [serializer.data] for a user instance.  The field
    [profile = PrimaryKeyRelatedField(many=True, read_only=True)] reads
    [instance.profile] and iterates over it; [instance.profile] is the one
    profile row of the user, as [UserViewSet.create] uses it, and a row is
    not iterable.  A user without profile has the field skipped. *)
Definition data (instance : User) : M User :=
  fun db =>
    match find (fun p => profile_user p =? user_id instance) (profiles db) with
    | Some _ => (Raise profile_TypeError, db)
    | None => (Ok instance, db)
    end.

End UserSerializer.

(** ** User creation and the Assignment Balancer ([UserViewSet.create]) *)
Module UserViewSet.

(** The body of the request: the [research] entry, which may be missing,
    and the user's fields. *)
Record UserData := mkUserData {
  data_research : option pk;
  data_username : string
}.

(** [Research.objects.filter(pk=research_id)] *)
Definition research_filter (db : DB) (research_id' : option pk)
    : list Research :=
  match research_id' with
  | Some k => filter (fun r => research_id r =? k) (researches db)
  | None => []
  end.

(** [Article.objects.filter(research=research)], [research] being the
    queryset above. *)
Definition articles_filter (db : DB) (research : list Research)
    : list Article :=
  filter (fun a => pk_exists research_id research (article_research a))
    (articles db).

(** [x.profiles.count()] *)
Definition profiles_count (db : DB) (x : Article) : nat :=
  length
    (filter (fun p =>
               match profile_article p with
               | Some k => k =? article_id x
               | None => false
               end) (profiles db)).

(** [lambda x, y: y if x.profiles.count() > y.profiles.count() else x] *)
Definition fewer (db : DB) (x y : Article) : Article :=
  if profiles_count db y <? profiles_count db x then y else x.

(** The Assignment Balancer: the reduction over the research's articles. *)
Definition target_article (db : DB) (research : list Research)
    : option Article :=
  reduce (fewer db) (articles_filter db research).

(** [instance.profile] *)
Definition user_profile (instance : User) : M Profile :=
  fun db =>
    match find (fun p => profile_user p =? user_id instance) (profiles db) with
    | Some p => (Ok p, db)
    | None => (Raise RelatedObjectDoesNotExist, db)
    end.

Section Create.

(** [self.get_serializer(data=request.data).is_valid()], the generic
    validation of the user's fields. *)
Variable user_is_valid : DB -> UserData -> bool.

Definition create (data : UserData) : M (Reply User) :=
  let research_id' := data_research data in
  db <- get ;;
  let research := research_filter db research_id' in
  if Nat.eqb (length research) 0 then
    ret (JsonResponse ["Select any research type."%string] 400)
  else
    (if user_is_valid db data then ret tt
     else raise (ValidationError "user")) ;;;
    instance <- insert_user (data_username data) ;;
    profile <- user_profile instance ;;
    match research_id' with
    | Some _ =>
        db1 <- get ;;
        match target_article db1 (research_filter db1 research_id') with
        | None => raise reduce_TypeError
        | Some target =>
            db2 <- get ;;
            (if pk_exists article_id (articles db2) (article_id target)
                && pk_exists user_id (users db2) (user_id instance)
             then ret tt
             else raise (ValidationError "profile")) ;;;
            update_profile profile (Some (article_id target))
              (user_id instance) ;;;
            ret tt
        end
    | None => ret tt
    end ;;;
    (* return HTTPResponse(serializer.data) *)
    representation <- UserSerializer.data instance ;;
    ret (HTTPResponse representation).

End Create.

End UserViewSet.

(** ** The research of a profile ([ProfileSerializer.research_id]) *)
Module ProfileSerializer.

Definition DoesNotExist : exn :=
  PyExn "DoesNotExist" "matching query does not exist.".

(** [research_id(self, profile)]: [profile.article] and [article.research]
    are fetched by key. *)
Definition research_id (profile : Profile) : M (option pk) :=
  match profile_article profile with
  | Some k =>
      fun db =>
        match find (fun a => article_id a =? k) (articles db) with
        | Some article =>
            match find (fun r => research_id r =? article_research article)
                    (researches db) with
            | Some research => (Ok (Some (research_id research)), db)
            | None => (Raise DoesNotExist, db)
            end
        | None => (Raise DoesNotExist, db)
        end
  | None => ret None
  end.

End ProfileSerializer.

(** ** Integrity of the database

    Every key in use lies below its table's next key, and the foreign keys
    the proofs rely on do as well. *)
Definition below {R : Type} (k : R -> pk) (bound : pk) (table : list R)
    : bool :=
  forallb (fun r => k r <? bound) table.

Definition db_ok (db : DB) : bool :=
  below user_id (next_user db) (users db)
  && below profile_id (next_profile db) (profiles db)
  && below profile_user (next_user db) (profiles db)
  && below take_id (next_take db) (takes db)
  && below milestone_id (next_milestone db) (milestones db)
  && below milestone_take (next_take db) (milestones db)
  && below response_id (next_response db) (responses db)
  && below response_milestone (next_milestone db) (responses db).

(** ** Rows written by the loops

    The rows that [copy_responses] appends, with keys counted up from
    [start]: what the loop leaves in the table, written as a list. *)
Fixpoint copied_rows (user milestone start : pk) (source : list Response)
    : list Response :=
  match source with
  | [] => []
  | r :: rest =>
      mkResponse start user (response_take r) milestone (response_sentence r)
      :: copied_rows user milestone (S start) rest
  end.

(** The rows that [save_responses] appends, with keys counted up from
    [start]. *)
Fixpoint saved_rows (user start : pk)
    (form : list TakeBindMilestoneViewSet.ResponseForm) : list Response :=
  match form with
  | [] => []
  | e :: rest =>
      mkResponse start user (TakeBindMilestoneViewSet.form_take e)
        (TakeBindMilestoneViewSet.form_milestone e)
        (TakeBindMilestoneViewSet.form_sentence e)
      :: saved_rows user (S start) rest
  end.

(** ** A small database to run the code on

    Research 1 has three articles and research 2 none.  Users 1 and 2 work
    on question 1, on articles 1 and 2.  Milestones 1, 2 and 5 are complete;
    milestone 3 has no [found] marker and milestone 4 is a copy. *)
Module Sample.

Definition db : DB :=
  mkDB
    [mkResearch 1; mkResearch 2]
    [mkArticle 1 1; mkArticle 2 1; mkArticle 3 1]
    [mkSentence 11 1; mkSentence 12 1; mkSentence 21 2; mkSentence 22 2]
    [mkUser 1 "ann"; mkUser 2 "bob"; mkUser 3 "cho"; mkUser 4 "dee"]
    [mkProfile 1 1 (Some 1); mkProfile 2 2 (Some 1); mkProfile 3 3 (Some 2);
     mkProfile 4 4 (Some 3)]
    [mkTake 1 1 1 1 None; mkTake 2 2 2 1 None]
    [mkMilestone 1 1 1 (Some 10%Z) None 5%Z;
     mkMilestone 2 2 2 (Some 10%Z) None 8%Z;
     mkMilestone 3 2 2 None None 99%Z;
     mkMilestone 4 2 2 (Some 10%Z) (Some 1) 50%Z;
     mkMilestone 5 1 1 (Some 12%Z) None 8%Z]
    [mkResponse 1 1 1 1 11; mkResponse 2 2 2 2 21; mkResponse 3 2 2 2 22;
     mkResponse 4 2 2 3 21; mkResponse 5 2 2 4 11; mkResponse 6 1 1 5 12;
     mkResponse 7 1 1 5 11]
    5 5 3 6 8.

(** A take of user 3 on article 3 and question 1, not yet stored. *)
Definition take3 : Take := mkTake 3 3 3 1 None.


Definition accept_user (_ : DB) (_ : UserViewSet.UserData) : bool := true.

Definition refuse_user (_ : DB) (_ : UserViewSet.UserData) : bool := false.

Definition accept_milestone (_ : DB) (_ : pk)
    (_ : TakeBindMilestoneViewSet.RenewData) : bool := true.

End Sample.

(** ** Lemmas on [reduce] with a pairwise choice by key *)
Section ReduceByKey.

Variable A : Type.
Variable key : A -> Z.
Variable f : A -> A -> A.
Hypothesis f_spec :
  forall x y, f x y = if (key x <? key y)%Z then y else x.

(** The fold returns the first element of [a :: xs] whose key is the
    greatest: everything before it is strictly smaller, everything after it
    is not greater. *)
Lemma fold_left_first_max (xs : list A) :
  forall a, exists pre post,
    a :: xs = pre ++ fold_left f xs a :: post /\
    (forall p, In p pre -> (key p < key (fold_left f xs a))%Z) /\
    (forall q, In q post -> (key q <= key (fold_left f xs a))%Z).
Proof.
  induction xs as [| y ys IH]; intros a; simpl.
  - exists [], []. simpl. repeat split; intros ? [].
  - rewrite f_spec. destruct (key a <? key y)%Z eqn:E.
    + apply Z.ltb_lt in E.
      destruct (IH y) as (pre & post & Heq & Hpre & Hpost).
      remember (fold_left f ys y) as m.
      exists (a :: pre), post. simpl. rewrite <- Heq.
      repeat split; auto.
      intros p [<- | Hp]; auto.
      destruct pre as [| p0 pre']; simpl in Heq.
      * injection Heq as Hy _. rewrite <- Hy. exact E.
      * injection Heq as Hy _. subst p0.
        specialize (Hpre y (or_introl eq_refl)). lia.
    + apply Z.ltb_ge in E.
      destruct (IH a) as (pre & post & Heq & Hpre & Hpost).
      remember (fold_left f ys a) as m.
      destruct pre as [| p0 pre']; simpl in Heq.
      * injection Heq as Ha Hys. subst post.
        exists [], (y :: ys). simpl. rewrite <- Ha.
        repeat split.
        -- intros ? [].
        -- intros q [<- | Hq]; [exact E |].
           rewrite Ha. apply Hpost. exact Hq.
      * injection Heq as Ha Hys. subst p0.
        exists (a :: y :: pre'), post. simpl. rewrite <- Hys.
        repeat split; auto.
        intros p [<- | [<- | Hp]].
        -- apply Hpre. left. reflexivity.
        -- specialize (Hpre a (or_introl eq_refl)). lia.
        -- apply Hpre. right. exact Hp.
Qed.

(** A list has one first-greatest position. *)
Lemma first_max_unique (pre pre' post post' : list A) (m m' : A) :
  pre ++ m :: post = pre' ++ m' :: post' ->
  (forall p, In p pre -> (key p < key m)%Z) ->
  (forall q, In q post -> (key q <= key m)%Z) ->
  (forall p, In p pre' -> (key p < key m')%Z) ->
  (forall q, In q post' -> (key q <= key m')%Z) ->
  m' = m.
Proof.
  revert pre'. induction pre as [| a pre IH]; intros [| a' pre']; simpl;
    intros Heq Hpre Hpost Hpre' Hpost'.
  - congruence.
  - injection Heq as -> ->.
    specialize (Hpre' a' (or_introl eq_refl)).
    specialize (Hpost m' (in_elt m' pre' post')). lia.
  - injection Heq as -> <-.
    specialize (Hpre m' (or_introl eq_refl)).
    specialize (Hpost' m (in_elt m pre post)). lia.
  - injection Heq as -> Heq. eapply IH; eauto.
Qed.

Lemma reduce_first_max (l : list A) (m : A) :
  reduce f l = Some m ->
  exists pre post,
    l = pre ++ m :: post /\
    (forall p, In p pre -> (key p < key m)%Z) /\
    (forall q, In q post -> (key q <= key m)%Z).
Proof.
  destruct l as [| a xs]; simpl; [discriminate |].
  intros [= <-]. apply fold_left_first_max.
Qed.

Lemma reduce_None (l : list A) : reduce f l = None <-> l = [].
Proof.
  destruct l; simpl; split; try discriminate; reflexivity.
Qed.

End ReduceByKey.

(** ** The Resolver's candidates and its choice *)

Lemma is_None_true {A : Type} (o : option A) : is_None o = true <-> o = None.
Proof. destruct o; simpl; split; congruence. Qed.

Lemma is_None_false {A : Type} (o : option A) :
  negb (is_None o) = true <-> o <> None.
Proof. destruct o; simpl; split; congruence. Qed.

Lemma length_0_eqb {A : Type} (l : list A) :
  Nat.eqb (length l) 0 = true <-> l = [].
Proof. destruct l; simpl; split; congruence. Qed.

Lemma in_flatten {A B : Type} (f : A -> list B) (l : list A) (b : B) :
  In b (concat (map f l)) <-> exists a, In a l /\ In b (f a).
Proof.
  rewrite in_concat. split.
  - intros (bs & Hbs & Hb). apply in_map_iff in Hbs.
    destruct Hbs as (a & <- & Ha). eauto.
  - intros (a & Ha & Hb). exists (f a).
    split; [apply in_map; exact Ha | exact Hb].
Qed.

Lemma has_responses_iff (db : DB) (m : Milestone) :
  Resolver.has_responses db m = true <->
  exists r, In r (responses db) /\ response_milestone r = milestone_id m.
Proof.
  unfold Resolver.has_responses, Resolver.milestone_responses.
  rewrite negb_true_iff. split.
  - intros H.
    destruct (filter _ (responses db)) as [| r rs] eqn:E; [discriminate |].
    assert (Hr : In r (r :: rs)) by (left; reflexivity).
    rewrite <- E in Hr. apply filter_In in Hr. destruct Hr as [Hin Heq].
    exists r. split; [exact Hin | apply Nat.eqb_eq; exact Heq].
  - intros (r & Hin & Heq).
    destruct (filter _ (responses db)) as [| r' rs] eqn:E; [| reflexivity].
    assert (Hr : In r []).
    { rewrite <- E. apply filter_In. split; [exact Hin |].
      apply Nat.eqb_eq. exact Heq. }
    destruct Hr.
Qed.

Lemma related_takes_iff (db : DB) (take t : Take) :
  In t (Resolver.related_takes db take) <->
  In t (takes db) /\ take_question t = take_question take /\
  take_article t <> take_article take.
Proof.
  unfold Resolver.related_takes. rewrite !filter_In, negb_true_iff.
  rewrite Nat.eqb_eq, Nat.eqb_neq. tauto.
Qed.

Lemma eligible_milestones_iff (db : DB) (x : Take) (m : Milestone) :
  In m (Resolver.eligible_milestones db x) <->
  In m (milestones db) /\ milestone_take m = take_id x /\
  milestone_copied_from m = None /\ milestone_found m <> None /\
  exists r, In r (responses db) /\ response_milestone r = milestone_id m.
Proof.
  unfold Resolver.eligible_milestones, Resolver.take_milestones.
  rewrite !filter_In, has_responses_iff, is_None_false, is_None_true.
  rewrite Nat.eqb_eq. tauto.
Qed.

Lemma later_spec (x y : Milestone) :
  Resolver.later x y =
  if (milestone_response_at x <? milestone_response_at y)%Z then y else x.
Proof. reflexivity. Qed.

(** C1.  The Resolver's candidates are exactly the milestones of takes with
    the reference take's question and another article that have no
    [copied_from], a [found] marker and a response; it returns [None]
    exactly when there is none, and otherwise the first candidate, in
    iteration order, that carries the greatest [response_at]. *)
Theorem latest_milestone_first_latest (db : DB) (take : Take) :
  (forall m,
      In m (Resolver.milestones_flatten db take) <->
      exists t,
        In t (takes db) /\ take_question t = take_question take /\
        take_article t <> take_article take /\
        In m (milestones db) /\ milestone_take m = take_id t /\
        milestone_copied_from m = None /\ milestone_found m <> None /\
        exists r, In r (responses db) /\
                  response_milestone r = milestone_id m) /\
  (Resolver.latest_milestone db take = None <->
   Resolver.milestones_flatten db take = []) /\
  (forall m,
      Resolver.latest_milestone db take = Some m <->
      exists pre post,
        Resolver.milestones_flatten db take = pre ++ m :: post /\
        (forall p, In p pre ->
           (milestone_response_at p < milestone_response_at m)%Z) /\
        (forall q, In q post ->
           (milestone_response_at q <= milestone_response_at m)%Z)).
Proof.
  split; [| split].
  - intros m. unfold Resolver.milestones_flatten. rewrite in_flatten. split.
    + intros (t & Ht & Hm). apply related_takes_iff in Ht.
      apply eligible_milestones_iff in Hm. exists t. tauto.
    + intros (t & Ht & Hq & Ha & Hm). exists t. split.
      * apply related_takes_iff. tauto.
      * apply eligible_milestones_iff. tauto.
  - unfold Resolver.latest_milestone.
    destruct (Resolver.milestones_flatten db take) as [| a l]; simpl.
    + tauto.
    + split; discriminate.
  - intros m. unfold Resolver.latest_milestone.
    destruct (Nat.eqb _ 0) eqn:E.
    + apply length_0_eqb in E. rewrite E. split; [discriminate |].
      intros (pre & post & Heq & _). destruct pre; discriminate.
    + split.
      * apply (@reduce_first_max _ milestone_response_at _ later_spec).
      * intros (pre & post & Heq & Hpre & Hpost).
        destruct (reduce Resolver.later (Resolver.milestones_flatten db take))
          as [m' |] eqn:R.
        -- f_equal.
           apply (@reduce_first_max _ milestone_response_at _ later_spec) in R.
           destruct R as (pre' & post' & Heq' & Hpre' & Hpost').
           rewrite Heq in Heq'.
           eapply (@first_max_unique _ milestone_response_at); eauto.
        -- apply reduce_None in R. rewrite R in Heq.
           destruct pre; discriminate.
Qed.

(** C6.  Whatever milestone the Resolver returns has a [found] marker and
    is not a copy, however late the [response_at] of the others. *)
Theorem latest_milestone_found_not_copied (db : DB) (take : Take)
    (m : Milestone) :
  Resolver.latest_milestone db take = Some m ->
  milestone_found m <> None /\ milestone_copied_from m = None.
Proof.
  intros H.
  assert (Hin : In m (Resolver.milestones_flatten db take)).
  { unfold Resolver.latest_milestone in H.
    destruct (Nat.eqb _ 0); [discriminate |].
    apply (@reduce_first_max _ milestone_response_at _ later_spec) in H.
    destruct H as (pre & post & -> & _). apply in_elt. }
  unfold Resolver.milestones_flatten in Hin. apply in_flatten in Hin.
  destruct Hin as (t & _ & Hm). apply eligible_milestones_iff in Hm. tauto.
Qed.

(** On the sample, milestone 3 (no [found], [response_at] 99) and
    milestone 4 (a copy, [response_at] 50) are passed over, and of the two
    milestones with [response_at] 8 the first met, milestone 5, is returned. *)
Lemma latest_milestone_found_not_copied_witness :
  Resolver.latest_milestone Sample.db Sample.take3
  = Some (mkMilestone 5 1 1 (Some 12%Z) None 8%Z) /\
  (milestone_found (mkMilestone 5 1 1 (Some 12%Z) None 8%Z) <> None /\
   milestone_copied_from (mkMilestone 5 1 1 (Some 12%Z) None 8%Z) = None).
Proof.
  split; [reflexivity |].
  apply (@latest_milestone_found_not_copied Sample.db Sample.take3).
  reflexivity.
Defined.

(** ** The Assignment Balancer *)

Lemma fewer_spec (db : DB) (x y : Article) :
  UserViewSet.fewer db x y =
  if (- Z.of_nat (UserViewSet.profiles_count db x)
      <? - Z.of_nat (UserViewSet.profiles_count db y))%Z
  then y else x.
Proof.
  unfold UserViewSet.fewer.
  destruct (Nat.ltb_spec (UserViewSet.profiles_count db y)
              (UserViewSet.profiles_count db x));
    destruct (Z.ltb_spec (- Z.of_nat (UserViewSet.profiles_count db x))
                (- Z.of_nat (UserViewSet.profiles_count db y)));
    try reflexivity; lia.
Qed.

Lemma target_article_first_min (db : DB) (research : list Research)
    (a : Article) :
  UserViewSet.target_article db research = Some a ->
  exists pre post,
    UserViewSet.articles_filter db research = pre ++ a :: post /\
    (forall p, In p pre ->
       UserViewSet.profiles_count db a < UserViewSet.profiles_count db p) /\
    (forall q, In q post ->
       UserViewSet.profiles_count db a <= UserViewSet.profiles_count db q).
Proof.
  unfold UserViewSet.target_article. intros H.
  apply (@reduce_first_max _
           (fun x => (- Z.of_nat (UserViewSet.profiles_count db x))%Z)
           _ (fewer_spec db)) in H.
  destruct H as (pre & post & Heq & Hpre & Hpost).
  exists pre, post. split; [exact Heq |]. split.
  - intros p Hp. specialize (Hpre p Hp). lia.
  - intros q Hq. specialize (Hpost q Hq). lia.
Qed.

(** The articles that the Balancer scans for a stored research [k] are the
    rows of the article table whose [research] is [k], in table order. *)
Lemma articles_filter_of_research (db : DB) (k : pk) :
  (exists r, In r (researches db) /\ research_id r = k) ->
  UserViewSet.articles_filter db (UserViewSet.research_filter db (Some k))
  = filter (fun a => article_research a =? k) (articles db).
Proof.
  intros (r & Hr & Hrk).
  unfold UserViewSet.articles_filter, UserViewSet.research_filter.
  apply filter_ext. intros a. unfold pk_exists.
  destruct (Nat.eqb_spec (article_research a) k) as [Heq | Hne].
  - apply existsb_exists. exists r. split.
    + apply filter_In. split; [exact Hr | apply Nat.eqb_eq; exact Hrk].
    + apply Nat.eqb_eq. congruence.
  - destruct (existsb _ _) eqn:E; [| reflexivity].
    apply existsb_exists in E. destruct E as (r' & Hr' & Heq').
    apply filter_In in Hr'. destruct Hr' as [_ Hk'].
    apply Nat.eqb_eq in Hk'. apply Nat.eqb_eq in Heq'. congruence.
Qed.

(** C3.  For a stored research that owns at least one article, the Balancer
    returns one of the research's articles, that is, of the rows of the
    article table whose [research] is this one, with the least number of
    profiles pointing to it; among several such it is the first in table
    order: every article of the research before it has strictly more
    profiles, every one after it at least as many. *)
Theorem target_article_least_assigned (db : DB) (k : pk) :
  (exists r, In r (researches db) /\ research_id r = k) ->
  filter (fun a => article_research a =? k) (articles db) <> [] ->
  exists a pre post,
    UserViewSet.target_article db (UserViewSet.research_filter db (Some k))
    = Some a /\
    filter (fun a => article_research a =? k) (articles db)
    = pre ++ a :: post /\
    (forall p, In p pre ->
       length
         (filter (fun pr => match profile_article pr with
                            | Some i => i =? article_id a
                            | None => false
                            end) (profiles db))
       < length
           (filter (fun pr => match profile_article pr with
                              | Some i => i =? article_id p
                              | None => false
                              end) (profiles db))) /\
    (forall q, In q post ->
       length
         (filter (fun pr => match profile_article pr with
                            | Some i => i =? article_id a
                            | None => false
                            end) (profiles db))
       <= length
            (filter (fun pr => match profile_article pr with
                               | Some i => i =? article_id q
                               | None => false
                               end) (profiles db))).
Proof.
  intros Hres Hne.
  rewrite <- (articles_filter_of_research db Hres) in *.
  destruct (UserViewSet.target_article db
              (UserViewSet.research_filter db (Some k))) as [a |] eqn:E.
  - destruct (target_article_first_min _ _ E) as (pre & post & H).
    exists a, pre, post. split; [reflexivity | exact H].
  - unfold UserViewSet.target_article in E. apply reduce_None in E.
    contradiction.
Qed.

(** Research 1 of the sample: article 1 has two profiles, articles 2 and 3
    one each; article 2 comes first and is chosen. *)
Lemma target_article_least_assigned_witness :
  UserViewSet.target_article Sample.db
    (UserViewSet.research_filter Sample.db (Some 1)) = Some (mkArticle 2 1) /\
  exists a pre post,
    UserViewSet.target_article Sample.db
      (UserViewSet.research_filter Sample.db (Some 1)) = Some a /\
    filter (fun a => article_research a =? 1) (articles Sample.db)
    = pre ++ a :: post /\
    (forall p, In p pre ->
       length
         (filter (fun pr => match profile_article pr with
                            | Some i => i =? article_id a
                            | None => false
                            end) (profiles Sample.db))
       < length
           (filter (fun pr => match profile_article pr with
                              | Some i => i =? article_id p
                              | None => false
                              end) (profiles Sample.db))) /\
    (forall q, In q post ->
       length
         (filter (fun pr => match profile_article pr with
                            | Some i => i =? article_id a
                            | None => false
                            end) (profiles Sample.db))
       <= length
            (filter (fun pr => match profile_article pr with
                               | Some i => i =? article_id q
                               | None => false
                               end) (profiles Sample.db))).
Proof.
  split; [reflexivity |].
  apply (@target_article_least_assigned Sample.db 1).
  - exists (mkResearch 1). split; [simpl; tauto | reflexivity].
  - discriminate.
Defined.

(** ** Take creation seeds exactly one milestone *)

Lemma below_In {R : Type} (k : R -> pk) (bound : pk) (table : list R) (r : R) :
  below k bound table = true -> In r table -> k r < bound.
Proof.
  unfold below. rewrite forallb_forall. intros H Hin.
  apply Nat.ltb_lt. apply H. exact Hin.
Qed.

Lemma filter_nil_when {A : Type} (f : A -> bool) (l : list A) :
  (forall x, In x l -> f x = false) -> filter f l = [].
Proof.
  induction l as [| a l IH]; simpl; intros H; [reflexivity |].
  rewrite (H a (or_introl eq_refl)). apply IH. intros x Hx. apply H. now right.
Qed.

Lemma filter_all_when {A : Type} (f : A -> bool) (l : list A) :
  (forall x, In x l -> f x = true) -> filter f l = l.
Proof.
  induction l as [| a l IH]; simpl; intros H; [reflexivity |].
  rewrite (H a (or_introl eq_refl)). f_equal. apply IH. intros x Hx.
  apply H. now right.
Qed.

(** A table whose column [k] stays below [bound] has no row with
    [k r = bound]. *)
Lemma filter_at_bound {R : Type} (k : R -> pk) (bound : pk) (table : list R) :
  below k bound table = true ->
  filter (fun r => k r =? bound) table = [].
Proof.
  intros H. apply filter_nil_when. intros r Hr.
  apply Nat.eqb_neq. pose proof (below_In _ _ _ _ H Hr). lia.
Qed.

Lemma db_ok_fields (db : DB) :
  db_ok db = true ->
  below user_id (next_user db) (users db) = true /\
  below profile_id (next_profile db) (profiles db) = true /\
  below profile_user (next_user db) (profiles db) = true /\
  below take_id (next_take db) (takes db) = true /\
  below milestone_id (next_milestone db) (milestones db) = true /\
  below milestone_take (next_take db) (milestones db) = true /\
  below response_id (next_response db) (responses db) = true /\
  below response_milestone (next_milestone db) (responses db) = true.
Proof.
  unfold db_ok. rewrite !andb_true_iff. tauto.
Qed.

Lemma copy_responses_run (user : pk) (milestone : Milestone)
    (source : list Response) :
  forall db,
    TakeBindMilestoneSerializer.copy_responses user milestone source db =
    (Ok tt,
     mkDB (researches db) (articles db) (sentences db) (users db)
       (profiles db) (takes db) (milestones db)
       (responses db
        ++ copied_rows user (milestone_id milestone) (next_response db) source)
       (next_user db) (next_profile db) (next_take db) (next_milestone db)
       (next_response db + length source)).
Proof.
  induction source as [| r rest IH]; intros db; simpl.
  - unfold ret. rewrite app_nil_r, Nat.add_0_r. destruct db; reflexivity.
  - unfold bind, insert_response. rewrite IH. simpl.
    rewrite <- app_assoc, Nat.add_succ_r. reflexivity.
Qed.

Lemma copied_rows_sentence (user milestone : pk) (source : list Response) :
  forall start,
    map response_sentence (copied_rows user milestone start source)
    = map response_sentence source.
Proof.
  induction source as [| r rest IH]; intros start; simpl;
    [reflexivity | now rewrite IH].
Qed.

Lemma copied_rows_id (user milestone : pk) (source : list Response) :
  forall start,
    map response_id (copied_rows user milestone start source)
    = seq start (length source).
Proof.
  induction source as [| r rest IH]; intros start; simpl;
    [reflexivity | now rewrite IH].
Qed.

Lemma copied_rows_owner (user milestone : pk) (source : list Response) :
  forall start r,
    In r (copied_rows user milestone start source) ->
    response_user r = user /\ response_milestone r = milestone.
Proof.
  induction source as [| r0 rest IH]; intros start r; simpl; [intros [] |].
  intros [<- | H]; [split; reflexivity | eapply IH; exact H].
Qed.

Lemma seeding_flatten_iff (db : DB)
    (vd : TakeBindMilestoneSerializer.ValidatedData) (m : Milestone) :
  In m (TakeBindMilestoneSerializer.milestones_flatten db vd) <->
  exists t,
    In t (takes db) /\
    take_question t = TakeBindMilestoneSerializer.vd_question vd /\
    take_article t = TakeBindMilestoneSerializer.vd_article vd /\
    In m (milestones db) /\ milestone_take m = take_id t /\
    milestone_copied_from m = None /\ milestone_found m <> None.
Proof.
  unfold TakeBindMilestoneSerializer.milestones_flatten.
  rewrite in_flatten.
  unfold TakeBindMilestoneSerializer.related_takes,
    TakeBindMilestoneSerializer.source_milestones, Resolver.take_milestones.
  split.
  - intros (t & Ht & Hm). exists t.
    rewrite !filter_In, !Nat.eqb_eq in Ht.
    rewrite !filter_In, is_None_false, is_None_true, Nat.eqb_eq in Hm. tauto.
  - intros (t & H). exists t.
    rewrite !filter_In, is_None_false, is_None_true, !Nat.eqb_eq. tauto.
Qed.

Lemma seeding_latest_in (db : DB)
    (vd : TakeBindMilestoneSerializer.ValidatedData) (m : Milestone) :
  TakeBindMilestoneSerializer.latest_milestone db vd = Some m ->
  exists pre post,
    TakeBindMilestoneSerializer.milestones_flatten db vd = pre ++ m :: post /\
    (forall p, In p pre ->
       (milestone_response_at p < milestone_response_at m)%Z) /\
    (forall q, In q post ->
       (milestone_response_at q <= milestone_response_at m)%Z).
Proof.
  unfold TakeBindMilestoneSerializer.latest_milestone.
  destruct (Nat.eqb _ 0); [discriminate |].
  apply (@reduce_first_max _ milestone_response_at _ later_spec).
Qed.

(** The run of [create] when a source milestone was found. *)
Lemma create_run_seeded (user : pk) (now : datetime)
    (vd : TakeBindMilestoneSerializer.ValidatedData) (db : DB)
    (source : Milestone) :
  TakeBindMilestoneSerializer.latest_milestone db vd = Some source ->
  TakeBindMilestoneSerializer.create user now vd db =
  (Ok (mkTake (next_take db) user
         (TakeBindMilestoneSerializer.vd_article vd)
         (TakeBindMilestoneSerializer.vd_question vd)
         (TakeBindMilestoneSerializer.vd_removed_at vd)),
   mkDB (researches db) (articles db) (sentences db) (users db) (profiles db)
     (takes db
      ++ [mkTake (next_take db) user
            (TakeBindMilestoneSerializer.vd_article vd)
            (TakeBindMilestoneSerializer.vd_question vd)
            (TakeBindMilestoneSerializer.vd_removed_at vd)])
     (milestones db
      ++ [mkMilestone (next_milestone db) user (next_take db)
            (milestone_found source) (Some (milestone_id source)) now])
     (responses db
      ++ copied_rows user (next_milestone db) (next_response db)
           (Resolver.milestone_responses db source))
     (next_user db) (next_profile db) (S (next_take db))
     (S (next_milestone db))
     (next_response db + length (Resolver.milestone_responses db source))).
Proof.
  intros H. unfold TakeBindMilestoneSerializer.create, bind, get.
  rewrite H. unfold insert_take, insert_milestone. simpl.
  rewrite copy_responses_run. reflexivity.
Qed.

(** The run of [create] when there is no source milestone. *)
Lemma create_run_empty (user : pk) (now : datetime)
    (vd : TakeBindMilestoneSerializer.ValidatedData) (db : DB) :
  TakeBindMilestoneSerializer.latest_milestone db vd = None ->
  TakeBindMilestoneSerializer.create user now vd db =
  (Ok (mkTake (next_take db) user
         (TakeBindMilestoneSerializer.vd_article vd)
         (TakeBindMilestoneSerializer.vd_question vd)
         (TakeBindMilestoneSerializer.vd_removed_at vd)),
   mkDB (researches db) (articles db) (sentences db) (users db) (profiles db)
     (takes db
      ++ [mkTake (next_take db) user
            (TakeBindMilestoneSerializer.vd_article vd)
            (TakeBindMilestoneSerializer.vd_question vd)
            (TakeBindMilestoneSerializer.vd_removed_at vd)])
     (milestones db
      ++ [mkMilestone (next_milestone db) user (next_take db) None None now])
     (responses db)
     (next_user db) (next_profile db) (S (next_take db))
     (S (next_milestone db)) (next_response db)).
Proof.
  intros H. unfold TakeBindMilestoneSerializer.create, bind, get.
  rewrite H. reflexivity.
Qed.

(** The milestones of the take just inserted: the one row appended. *)
Lemma new_take_milestones (db : DB) (m : Milestone) :
  db_ok db = true ->
  milestone_take m = next_take db ->
  filter (fun x => milestone_take x =? next_take db) (milestones db ++ [m])
  = [m].
Proof.
  intros Hok Hm. apply db_ok_fields in Hok.
  rewrite filter_app, filter_at_bound by tauto.
  simpl. rewrite Hm, Nat.eqb_refl. reflexivity.
Qed.

(** C4.  Whatever the user, article and question, [create] returns a take
    that owns exactly one milestone: a copy of the source when one was
    found, and otherwise a milestone with no [found], no [copied_from] and
    no responses. *)
Theorem create_owns_one_milestone (user : pk) (now : datetime)
    (vd : TakeBindMilestoneSerializer.ValidatedData) (db : DB) :
  db_ok db = true ->
  exists take db' m,
    TakeBindMilestoneSerializer.create user now vd db = (Ok take, db') /\
    Resolver.take_milestones db' take = [m] /\
    match TakeBindMilestoneSerializer.latest_milestone db vd with
    | Some source =>
        milestone_copied_from m = Some (milestone_id source) /\
        milestone_found m = milestone_found source
    | None =>
        milestone_found m = None /\ milestone_copied_from m = None /\
        Resolver.milestone_responses db' m = []
    end.
Proof.
  intros Hok.
  destruct (TakeBindMilestoneSerializer.latest_milestone db vd)
    as [source |] eqn:E.
  - rewrite (create_run_seeded user now vd db E).
    eexists _, _,
      (mkMilestone (next_milestone db) user (next_take db)
         (milestone_found source) (Some (milestone_id source)) now).
    split; [reflexivity |]. split.
    + unfold Resolver.take_milestones. simpl.
      apply new_take_milestones; [exact Hok | reflexivity].
    + split; reflexivity.
  - rewrite (create_run_empty user now vd db E).
    eexists _, _,
      (mkMilestone (next_milestone db) user (next_take db) None None now).
    split; [reflexivity |]. split.
    + unfold Resolver.take_milestones. simpl.
      apply new_take_milestones; [exact Hok | reflexivity].
    + repeat split. unfold Resolver.milestone_responses. simpl.
      apply filter_at_bound. apply db_ok_fields in Hok. tauto.
Qed.

(** On the sample, a take on article 3 finds no source and gets one empty
    milestone. *)
Lemma create_owns_one_milestone_witness :
  db_ok Sample.db = true /\
  exists take db' m,
    TakeBindMilestoneSerializer.create 3 100%Z
      (TakeBindMilestoneSerializer.mkValidatedData 3 1 None) Sample.db
    = (Ok take, db') /\
    Resolver.take_milestones db' take = [m] /\
    match TakeBindMilestoneSerializer.latest_milestone Sample.db
            (TakeBindMilestoneSerializer.mkValidatedData 3 1 None) with
    | Some source =>
        milestone_copied_from m = Some (milestone_id source) /\
        milestone_found m = milestone_found source
    | None =>
        milestone_found m = None /\ milestone_copied_from m = None /\
        Resolver.milestone_responses db' m = []
    end.
Proof.
  split; [reflexivity |].
  apply (@create_owns_one_milestone 3 100%Z
           (TakeBindMilestoneSerializer.mkValidatedData 3 1 None) Sample.db).
  reflexivity.
Defined.

(** ** Take creation copies the source's responses *)

Lemma new_milestone_responses (db : DB) (rows : list Response) :
  db_ok db = true ->
  (forall r, In r rows -> response_milestone r = next_milestone db) ->
  filter (fun r => response_milestone r =? next_milestone db)
    (responses db ++ rows) = rows.
Proof.
  intros Hok Hrows. apply db_ok_fields in Hok.
  rewrite filter_app, filter_at_bound by tauto. simpl.
  apply filter_all_when. intros r Hr. apply Nat.eqb_eq. apply Hrows. exact Hr.
Qed.

Lemma old_milestone_responses (db : DB) (k : pk) (rows : list Response) :
  k < next_milestone db ->
  (forall r, In r rows -> response_milestone r = next_milestone db) ->
  filter (fun r => response_milestone r =? k) (responses db ++ rows)
  = filter (fun r => response_milestone r =? k) (responses db).
Proof.
  intros Hk Hrows. rewrite filter_app.
  rewrite (filter_nil_when _ rows); [apply app_nil_r |].
  intros r Hr. apply Nat.eqb_neq. rewrite (Hrows r Hr). lia.
Qed.

(** C5.  When [create] finds a source milestone, it appends to the
    milestone table one milestone of the new take, which carries the
    source's [found] and points to the source in [copied_from], and to the
    response table one row per response that the table holds for the
    source: the rows name the same sentences, as many and in the same
    order; each belongs to the new milestone and the new user and has a key
    that no response had before, the keys differ from one another, and the
    source keeps its own responses. *)
Theorem create_copies_source_responses (user : pk) (now : datetime)
    (vd : TakeBindMilestoneSerializer.ValidatedData) (db : DB)
    (source : Milestone) :
  db_ok db = true ->
  TakeBindMilestoneSerializer.latest_milestone db vd = Some source ->
  exists take db' m rows,
    TakeBindMilestoneSerializer.create user now vd db = (Ok take, db') /\
    milestones db' = milestones db ++ [m] /\
    milestone_take m = take_id take /\
    Resolver.take_milestones db' take = [m] /\
    milestone_found m = milestone_found source /\
    milestone_copied_from m = Some (milestone_id source) /\
    responses db' = responses db ++ rows /\
    map response_sentence rows
    = map response_sentence
        (filter (fun r => response_milestone r =? milestone_id source)
           (responses db)) /\
    (forall r, In r rows ->
       response_user r = user /\
       response_milestone r = milestone_id m /\
       ~ In (response_id r) (map response_id (responses db))) /\
    NoDup (map response_id rows) /\
    Resolver.milestone_responses db' m = rows /\
    Resolver.milestone_responses db' source
    = filter (fun r => response_milestone r =? milestone_id source)
        (responses db).
Proof.
  intros Hok E.
  rewrite (create_run_seeded user now vd db E).
  eexists _, _,
    (mkMilestone (next_milestone db) user (next_take db)
       (milestone_found source) (Some (milestone_id source)) now),
    (copied_rows user (next_milestone db) (next_response db)
       (Resolver.milestone_responses db source)).
  split; [reflexivity |].
  assert (Hrows : forall r,
             In r (copied_rows user (next_milestone db) (next_response db)
                     (Resolver.milestone_responses db source)) ->
             response_milestone r = next_milestone db).
  { intros r Hr. apply copied_rows_owner in Hr. tauto. }
  cbn [milestones responses milestone_take take_id milestone_found
       milestone_copied_from milestone_id].
  repeat (split; [reflexivity |]).
  split; [| split; [reflexivity | split; [reflexivity | split;
    [reflexivity | split; [| split; [| split; [| split]]]]]]].
  - unfold Resolver.take_milestones. cbn [milestones take_id].
    apply new_take_milestones; [exact Hok | reflexivity].
  - apply copied_rows_sentence.
  - intros r Hr. split; [apply copied_rows_owner in Hr; tauto |].
    split; [apply Hrows; exact Hr |].
    intros Hold. apply in_map_iff in Hold. destruct Hold as (r0 & Hid & Hr0).
    apply db_ok_fields in Hok.
    assert (H0 : response_id r0 < next_response db)
      by (eapply below_In; [| exact Hr0]; tauto).
    assert (H1 : In (response_id r)
                   (seq (next_response db)
                      (length (Resolver.milestone_responses db source)))).
    { rewrite <- (copied_rows_id user (next_milestone db)).
      apply in_map. exact Hr. }
    apply in_seq in H1. lia.
  - rewrite copied_rows_id. apply seq_NoDup.
  - unfold Resolver.milestone_responses at 1. cbn [responses milestone_id].
    apply new_milestone_responses; assumption.
  - unfold Resolver.milestone_responses at 1. cbn [responses].
    apply old_milestone_responses; [| exact Hrows].
    apply seeding_latest_in in E. destruct E as (pre & post & Heq & _).
    assert (Hin : In source
                    (TakeBindMilestoneSerializer.milestones_flatten db vd))
      by (rewrite Heq; apply in_elt).
    apply seeding_flatten_iff in Hin. destruct Hin as (t & _ & _ & _ & Hm & _).
    apply db_ok_fields in Hok. eapply below_In; [| exact Hm]. tauto.
Qed.

(** On the sample, a take on article 1 is seeded from milestone 5, whose
    two responses (sentences 12 and 11) are copied under keys 8 and 9. *)
Lemma create_copies_source_responses_witness :
  TakeBindMilestoneSerializer.latest_milestone Sample.db
    (TakeBindMilestoneSerializer.mkValidatedData 1 1 None)
  = Some (mkMilestone 5 1 1 (Some 12%Z) None 8%Z) /\
  responses
    (snd (TakeBindMilestoneSerializer.create 3 100%Z
            (TakeBindMilestoneSerializer.mkValidatedData 1 1 None) Sample.db))
  = responses Sample.db ++ [mkResponse 8 3 1 6 12; mkResponse 9 3 1 6 11] /\
  exists take db' m rows,
    TakeBindMilestoneSerializer.create 3 100%Z
      (TakeBindMilestoneSerializer.mkValidatedData 1 1 None) Sample.db
    = (Ok take, db') /\
    milestones db' = milestones Sample.db ++ [m] /\
    milestone_take m = take_id take /\
    Resolver.take_milestones db' take = [m] /\
    milestone_found m = Some 12%Z /\
    milestone_copied_from m = Some 5 /\
    responses db' = responses Sample.db ++ rows /\
    map response_sentence rows
    = map response_sentence
        (filter (fun r => response_milestone r =? 5) (responses Sample.db)) /\
    (forall r, In r rows ->
       response_user r = 3 /\
       response_milestone r = milestone_id m /\
       ~ In (response_id r) (map response_id (responses Sample.db))) /\
    NoDup (map response_id rows) /\
    Resolver.milestone_responses db' m = rows /\
    Resolver.milestone_responses db' (mkMilestone 5 1 1 (Some 12%Z) None 8%Z)
    = filter (fun r => response_milestone r =? 5) (responses Sample.db).
Proof.
  split; [reflexivity |]. split; [reflexivity |].
  apply (@create_copies_source_responses 3 100%Z
           (TakeBindMilestoneSerializer.mkValidatedData 1 1 None) Sample.db
           (mkMilestone 5 1 1 (Some 12%Z) None 8%Z));
    reflexivity.
Defined.

(** ** Where take creation looks for its source *)




(** ** Milestone renewal *)

Lemma save_responses_run (user : pk)
    (form : list TakeBindMilestoneViewSet.ResponseForm) :
  forall db,
    TakeBindMilestoneViewSet.save_responses user form db =
    (Ok (saved_rows user (next_response db) form),
     mkDB (researches db) (articles db) (sentences db) (users db)
       (profiles db) (takes db) (milestones db)
       (responses db ++ saved_rows user (next_response db) form)
       (next_user db) (next_profile db) (next_take db) (next_milestone db)
       (next_response db + length form)).
Proof.
  induction form as [| e rest IH]; intros db; simpl.
  - unfold ret. rewrite app_nil_r, Nat.add_0_r. destruct db; reflexivity.
  - unfold bind, insert_response. rewrite IH. simpl. unfold ret.
    rewrite <- app_assoc, Nat.add_succ_r. reflexivity.
Qed.

Lemma find_pk_exists {R : Type} (id_of : R -> pk) (table : list R) (k : pk)
    (r : R) :
  find (fun x => id_of x =? k) table = Some r ->
  id_of r = k /\ pk_exists id_of table k = true.
Proof.
  intros H. pose proof (find_some _ _ H) as [Hin Heq].
  apply Nat.eqb_eq in Heq. split; [exact Heq |].
  unfold pk_exists. apply existsb_exists. exists r. split; [exact Hin |].
  apply Nat.eqb_eq. exact Heq.
Qed.

Lemma pk_exists_app_last {R : Type} (id_of : R -> pk) (table : list R)
    (r : R) :
  pk_exists id_of (table ++ [r]) (id_of r) = true.
Proof.
  unfold pk_exists. rewrite existsb_app. simpl.
  rewrite Nat.eqb_refl. apply orb_true_iff. right. reflexivity.
Qed.

Lemma response_form_is_valid_map (db : DB) (take milestone : pk)
    (l : list pk) :
  pk_exists take_id (takes db) take = true ->
  pk_exists milestone_id (milestones db) milestone = true ->
  TakeBindMilestoneViewSet.response_form_is_valid db
    (map (fun s =>
                 TakeBindMilestoneViewSet.mkResponseForm take milestone s) l)
  = forallb (pk_exists sentence_id (sentences db)) l.
Proof.
  intros Ht Hm. unfold TakeBindMilestoneViewSet.response_form_is_valid.
  induction l as [| s l IH]; simpl; [reflexivity |].
  rewrite Ht, Hm, IH. reflexivity.
Qed.

Lemma saved_rows_map (user take milestone : pk) (l : list pk) :
  forall start,
    map response_id
      (saved_rows user start
         (map (fun s =>
                 TakeBindMilestoneViewSet.mkResponseForm take milestone s)
            l)) = seq start (length l) /\
    map response_sentence
      (saved_rows user start
         (map (fun s =>
                 TakeBindMilestoneViewSet.mkResponseForm take milestone s)
            l)) = l /\
    (forall r,
        In r (saved_rows user start
                (map (fun s =>
                        TakeBindMilestoneViewSet.mkResponseForm take milestone s)
                   l)) ->
        response_user r = user /\ response_milestone r = milestone /\
        response_take r = take).
Proof.
  induction l as [| s l IH]; intros start; simpl.
  - repeat split; intros; contradiction.
  - destruct (IH (S start)) as (Hid & Hs & Hr).
    rewrite Hid, Hs. split; [reflexivity |]. split; [reflexivity |].
    intros r [<- | H]; [repeat split | apply Hr; exact H].
Qed.

Section Renewal.

Variable milestone_is_valid :
  DB -> pk -> TakeBindMilestoneViewSet.RenewData -> bool.

(** A row written back unchanged leaves the table as it was. *)
Lemma map_write_back (db : DB) (m : Milestone) :
  db_ok db = true -> milestone_id m = next_milestone db ->
  map (fun x => if milestone_id x =? next_milestone db then m else x)
    (milestones db ++ [m]) = milestones db ++ [m].
Proof.
  intros Hok Hm. apply db_ok_fields in Hok.
  rewrite map_app. simpl. rewrite Hm, Nat.eqb_refl. f_equal.
  rewrite <- (map_id (milestones db)) at 2. apply map_ext_in.
  intros x Hx.
  assert (milestone_id x < next_milestone db)
    by (eapply below_In; [| exact Hx]; tauto).
  destruct (Nat.eqb_spec (milestone_id x) (next_milestone db));
    [lia | reflexivity].
Qed.

(** The run of [renew_milestone] when the take exists, the milestone
    columns validate and every sentence key resolves. *)
Lemma renew_milestone_run (user : pk) (now : datetime)
    (data : TakeBindMilestoneViewSet.RenewData) (key : pk) (db : DB)
    (take : Take) :
  db_ok db = true ->
  find (fun t => take_id t =? key) (takes db) = Some take ->
  milestone_is_valid db (take_id take) data = true ->
  forallb (pk_exists sentence_id (sentences db))
    (TakeBindMilestoneViewSet.sentences_of data) = true ->
  let m := mkMilestone (next_milestone db) user (take_id take)
             (TakeBindMilestoneViewSet.data_found data)
             (TakeBindMilestoneViewSet.data_copied_from data) now in
  let rows := saved_rows user (next_response db)
                (map (fun s =>
                        TakeBindMilestoneViewSet.mkResponseForm (take_id take)
                          (next_milestone db) s)
                   (TakeBindMilestoneViewSet.sentences_of data)) in
  TakeBindMilestoneViewSet.renew_milestone milestone_is_valid user now data key
    db =
  (Ok (HTTPResponse (m, rows)),
   mkDB (researches db) (articles db) (sentences db) (users db) (profiles db)
     (takes db) (milestones db ++ [m]) (responses db ++ rows)
     (next_user db) (next_profile db) (next_take db) (S (next_milestone db))
     (next_response db + length (TakeBindMilestoneViewSet.sentences_of data))).
Proof.
  intros Hok Hfind Hvalid Hsent m rows.
  pose proof (find_pk_exists take_id _ _ Hfind) as [Hkey Htake].
  rewrite <- Hkey in Htake.
  unfold TakeBindMilestoneViewSet.renew_milestone, bind at 1,
    TakeBindMilestoneViewSet.get_object.
  rewrite Hfind. unfold bind at 1, get at 1. unfold bind at 1.
  rewrite Hvalid. unfold ret at 1. unfold bind at 1, insert_milestone.
  unfold bind at 1, get at 1. unfold bind at 1.
  cbn [milestone_id].
  rewrite response_form_is_valid_map;
    [| exact Htake
     | exact (pk_exists_app_last milestone_id (milestones db) m)].
  cbn [sentences]. rewrite Hsent. unfold ret at 1. unfold bind at 1.
  rewrite save_responses_run. cbn [takes next_response responses milestones].
  unfold bind at 1, get at 1. unfold bind at 1. cbn [takes].
  rewrite Htake. unfold ret at 1. unfold bind at 1, update_milestone_take.
  cbn [milestone_id milestone_user milestone_found milestone_copied_from
       milestone_response_at].
  unfold bind, get, ret, Resolver.milestone_responses.
  cbn -[saved_rows Nat.add]. fold m. fold rows.
  rewrite length_map.
  rewrite (new_milestone_responses db rows Hok).
  - rewrite (map_write_back db m Hok eq_refl). reflexivity.
  - intros r Hr. apply saved_rows_map in Hr. tauto.
Qed.

(** The run of [renew_milestone] when the take exists and some sentence
    key does not resolve. *)
Lemma renew_milestone_rejects (user : pk) (now : datetime)
    (data : TakeBindMilestoneViewSet.RenewData) (key : pk) (db : DB)
    (take : Take) :
  find (fun t => take_id t =? key) (takes db) = Some take ->
  forallb (pk_exists sentence_id (sentences db))
    (TakeBindMilestoneViewSet.sentences_of data) = false ->
  exists msg db',
    TakeBindMilestoneViewSet.renew_milestone milestone_is_valid user now data
      key db = (Raise (ValidationError msg), db').
Proof.
  intros Hfind Hsent.
  pose proof (find_pk_exists take_id _ _ Hfind) as [Hkey Htake].
  rewrite <- Hkey in Htake.
  unfold TakeBindMilestoneViewSet.renew_milestone, bind at 1,
    TakeBindMilestoneViewSet.get_object.
  rewrite Hfind. unfold bind at 1, get at 1. unfold bind at 1.
  destruct (milestone_is_valid db (take_id take) data).
  - unfold ret at 1. unfold bind at 1, insert_milestone.
    unfold bind at 1, get at 1. unfold bind at 1.
    cbn [milestone_id].
    rewrite response_form_is_valid_map;
      [| exact Htake
       | exact (pk_exists_app_last milestone_id (milestones db)
                  (mkMilestone (next_milestone db) user (take_id take)
                     (TakeBindMilestoneViewSet.data_found data)
                     (TakeBindMilestoneViewSet.data_copied_from data) now))].
    cbn [sentences]. rewrite Hsent. unfold raise. eexists _, _. reflexivity.
  - unfold raise. eexists _, _. reflexivity.
Qed.

(** C7.  On a stored take whose request validates, [renew_milestone]
    inserts one milestone for the take and the acting user and, after the
    responses already stored, one response per element of the sentence
    list, in the list's order and with its repetitions, each linked to the
    new milestone and the acting user; they are the milestone's
    responses. *)
Theorem renew_milestone_one_response_per_sentence (user : pk)
    (now : datetime) (data : TakeBindMilestoneViewSet.RenewData) (key : pk)
    (db : DB) (take : Take) :
  db_ok db = true ->
  find (fun t => take_id t =? key) (takes db) = Some take ->
  milestone_is_valid db (take_id take) data = true ->
  forallb (pk_exists sentence_id (sentences db))
    (TakeBindMilestoneViewSet.sentences_of data) = true ->
  exists m rs db',
    TakeBindMilestoneViewSet.renew_milestone milestone_is_valid user now data
      key db = (Ok (HTTPResponse (m, rs)), db') /\
    milestones db' = milestones db ++ [m] /\
    milestone_take m = take_id take /\ milestone_user m = user /\
    responses db' = responses db ++ rs /\
    Resolver.milestone_responses db' m = rs /\
    map response_sentence rs = TakeBindMilestoneViewSet.sentences_of data /\
    (forall r, In r rs ->
       response_milestone r = milestone_id m /\ response_user r = user).
Proof.
  intros Hok Hfind Hvalid Hsent.
  rewrite (@renew_milestone_run user now data key db take Hok Hfind Hvalid
             Hsent).
  eexists _, _, _. split; [reflexivity |].
  cbn [milestones responses milestone_take milestone_user milestone_id].
  split; [reflexivity |]. split; [reflexivity |]. split; [reflexivity |].
  split; [reflexivity |].
  split; [| split].
  - unfold Resolver.milestone_responses. cbn [responses milestone_id].
    apply new_milestone_responses; [exact Hok |].
    intros r Hr. apply saved_rows_map in Hr. tauto.
  - apply saved_rows_map.
  - intros r Hr. apply saved_rows_map in Hr. tauto.
Qed.

(** With an empty sentence list, or none, the renewal goes through and
    leaves a milestone without responses. *)
Lemma renew_milestone_no_sentences (user : pk) (now : datetime)
    (data : TakeBindMilestoneViewSet.RenewData) (key : pk) (db : DB)
    (take : Take) :
  db_ok db = true ->
  find (fun t => take_id t =? key) (takes db) = Some take ->
  milestone_is_valid db (take_id take) data = true ->
  TakeBindMilestoneViewSet.sentences_of data = [] ->
  exists m db',
    TakeBindMilestoneViewSet.renew_milestone milestone_is_valid user now data
      key db = (Ok (HTTPResponse (m, [])), db') /\
    milestones db' = milestones db ++ [m] /\
    responses db' = responses db /\
    Resolver.milestone_responses db' m = [].
Proof.
  intros Hok Hfind Hvalid Hnil.
  assert (Hsent : forallb (pk_exists sentence_id (sentences db))
                    (TakeBindMilestoneViewSet.sentences_of data) = true)
    by (rewrite Hnil; reflexivity).
  rewrite (@renew_milestone_run user now data key db take Hok Hfind Hvalid
             Hsent).
  rewrite Hnil. cbn [map saved_rows length]. rewrite app_nil_r.
  eexists _, _. split; [reflexivity |].
  cbn [milestones responses]. split; [reflexivity |]. split; [reflexivity |].
  unfold Resolver.milestone_responses. cbn [responses milestone_id].
  apply filter_at_bound. apply db_ok_fields in Hok. tauto.
Qed.

(** C8, as the code has it.  On a stored take, [renew_milestone] raises
    [ValidationError] as soon as one sentence key names no stored sentence;
    it goes through when the milestone columns validate and every sentence
    key names a stored sentence, of whatever article. *)
Theorem renew_milestone_validates_sentence_keys (user : pk) (now : datetime)
    (data : TakeBindMilestoneViewSet.RenewData) (key : pk) (db : DB)
    (take : Take) :
  find (fun t => take_id t =? key) (takes db) = Some take ->
  ((exists s, In s (TakeBindMilestoneViewSet.sentences_of data) /\
              forall x, In x (sentences db) -> sentence_id x <> s) ->
   exists msg db',
     TakeBindMilestoneViewSet.renew_milestone milestone_is_valid user now data
       key db = (Raise (PyExn "ValidationError" msg), db')) /\
  (db_ok db = true ->
   milestone_is_valid db (take_id take) data = true ->
   (forall s, In s (TakeBindMilestoneViewSet.sentences_of data) ->
      exists x, In x (sentences db) /\ sentence_id x = s) ->
   exists m rs db',
     TakeBindMilestoneViewSet.renew_milestone milestone_is_valid user now data
       key db = (Ok (HTTPResponse (m, rs)), db') /\
     milestones db' = milestones db ++ [m] /\
     responses db' = responses db ++ rs /\
     map response_sentence rs = TakeBindMilestoneViewSet.sentences_of data).
Proof.
  intros Hfind. split.
  - intros (s & Hs & Hnone).
    apply (@renew_milestone_rejects user now data key db take Hfind).
    destruct (forallb _ _) eqn:E; [| reflexivity].
    rewrite forallb_forall in E. specialize (E s Hs).
    unfold pk_exists in E. apply existsb_exists in E.
    destruct E as (x & Hx & Heq). apply Nat.eqb_eq in Heq.
    exfalso. exact (Hnone x Hx Heq).
  - intros Hok Hvalid Hall.
    assert (Hsent : forallb (pk_exists sentence_id (sentences db))
                      (TakeBindMilestoneViewSet.sentences_of data) = true).
    { apply forallb_forall. intros s Hs. destruct (Hall s Hs) as (x & Hx & Heq).
      unfold pk_exists. apply existsb_exists. exists x.
      split; [exact Hx | apply Nat.eqb_eq; exact Heq]. }
    rewrite (@renew_milestone_run user now data key db take Hok Hfind Hvalid
             Hsent).
    eexists _, _, _. split; [reflexivity |].
    cbn [milestones responses].
    split; [reflexivity |]. split; [reflexivity |]. apply saved_rows_map.
Qed.

End Renewal.

(** On the sample, user 1 renews take 1 with sentences 12, 12 and 11: three
    responses under keys 8, 9 and 10, the repetition kept. *)
Lemma renew_milestone_one_response_per_sentence_witness :
  TakeBindMilestoneViewSet.renew_milestone Sample.accept_milestone 1 100%Z
    (TakeBindMilestoneViewSet.mkRenewData (Some [12; 12; 11]) None None) 1
    Sample.db
  = (Ok (HTTPResponse
           (mkMilestone 6 1 1 None None 100%Z,
            [mkResponse 8 1 1 6 12; mkResponse 9 1 1 6 12;
             mkResponse 10 1 1 6 11])),
     snd (TakeBindMilestoneViewSet.renew_milestone Sample.accept_milestone 1
            100%Z
            (TakeBindMilestoneViewSet.mkRenewData (Some [12; 12; 11]) None
               None) 1 Sample.db)) /\
  exists m rs db',
    TakeBindMilestoneViewSet.renew_milestone Sample.accept_milestone 1 100%Z
      (TakeBindMilestoneViewSet.mkRenewData (Some [12; 12; 11]) None None) 1
      Sample.db = (Ok (HTTPResponse (m, rs)), db') /\
    milestones db' = milestones Sample.db ++ [m] /\
    milestone_take m = 1 /\ milestone_user m = 1 /\
    responses db' = responses Sample.db ++ rs /\
    Resolver.milestone_responses db' m = rs /\
    map response_sentence rs = [12; 12; 11] /\
    (forall r, In r rs ->
       response_milestone r = milestone_id m /\ response_user r = 1).
Proof.
  split; [reflexivity |].
  apply (@renew_milestone_one_response_per_sentence Sample.accept_milestone
           1 100%Z
           (TakeBindMilestoneViewSet.mkRenewData (Some [12; 12; 11]) None None)
           1 Sample.db (mkTake 1 1 1 1 None));
    reflexivity.
Defined.

(** On the sample, sentence 99 does not exist and the renewal of take 1
    with it is refused; sentences 11 and 12 exist and are accepted. *)
Lemma renew_milestone_validates_sentence_keys_witness :
  (exists msg db',
     TakeBindMilestoneViewSet.renew_milestone Sample.accept_milestone 1 100%Z
       (TakeBindMilestoneViewSet.mkRenewData (Some [11; 99]) None None) 1
       Sample.db = (Raise (PyExn "ValidationError" msg), db')) /\
  (exists m rs db',
     TakeBindMilestoneViewSet.renew_milestone Sample.accept_milestone 1 100%Z
       (TakeBindMilestoneViewSet.mkRenewData (Some [11; 12]) None None) 1
       Sample.db = (Ok (HTTPResponse (m, rs)), db') /\
     milestones db' = milestones Sample.db ++ [m] /\
     responses db' = responses Sample.db ++ rs /\
     map response_sentence rs = [11; 12]).
Proof.
  split.
  - apply (proj1
      (@renew_milestone_validates_sentence_keys Sample.accept_milestone 1
         100%Z
         (TakeBindMilestoneViewSet.mkRenewData (Some [11; 99]) None None)
         1 Sample.db (mkTake 1 1 1 1 None) eq_refl)).
    exists 99. split; [simpl; tauto |].
    intros x Hx. simpl in Hx.
    destruct Hx as [<- | [<- | [<- | [<- | []]]]]; discriminate.
  - apply (proj2
      (@renew_milestone_validates_sentence_keys Sample.accept_milestone 1
         100%Z
         (TakeBindMilestoneViewSet.mkRenewData (Some [11; 12]) None None)
         1 Sample.db (mkTake 1 1 1 1 None) eq_refl)).
    + reflexivity.
    + reflexivity.
    + intros s Hs. simpl in Hs. destruct Hs as [<- | [<- | []]].
      * exists (mkSentence 11 1). simpl. tauto.
      * exists (mkSentence 12 1). simpl. tauto.
Defined.

(** C8, as the claim has it, fails on the sample: take 1 is on article 1,
    sentence 21 belongs to article 2 only, and the renewal of take 1 with
    sentence 21 is accepted and stores a response on that sentence. *)
Lemma renew_milestone_accepts_other_articles_sentence :
  find (fun t => take_id t =? 1) (takes Sample.db)
  = Some (mkTake 1 1 1 1 None) /\
  (forall x, In x (sentences Sample.db) -> sentence_id x = 21 ->
     sentence_article x <> take_article (mkTake 1 1 1 1 None)) /\
  fst (TakeBindMilestoneViewSet.renew_milestone Sample.accept_milestone 1
         100%Z
         (TakeBindMilestoneViewSet.mkRenewData (Some [21]) None None) 1
         Sample.db)
  = Ok (HTTPResponse
          (mkMilestone 6 1 1 None None 100%Z, [mkResponse 8 1 1 6 21])) /\
  In (mkResponse 8 1 1 6 21)
    (responses
       (snd (TakeBindMilestoneViewSet.renew_milestone Sample.accept_milestone
               1 100%Z
               (TakeBindMilestoneViewSet.mkRenewData (Some [21]) None None) 1
               Sample.db))).
Proof.
  split; [reflexivity |]. split.
  - intros x Hx. simpl in Hx.
    destruct Hx as [<- | [<- | [<- | [<- | []]]]]; simpl; intros H;
      discriminate.
  - split; [reflexivity |]. vm_compute. tauto.
Qed.

(** ** User creation *)

Lemma find_app_last {A : Type} (f : A -> bool) (l : list A) (a : A) :
  (forall x, In x l -> f x = false) -> f a = true ->
  find f (l ++ [a]) = Some a.
Proof.
  induction l as [| b l IH]; simpl; intros Hl Ha.
  - rewrite Ha. reflexivity.
  - rewrite (Hl b (or_introl eq_refl)). apply IH; [| exact Ha].
    intros x Hx. apply Hl. now right.
Qed.

Lemma fold_left_ext_in {A : Type} (f g : A -> A -> A) :
  (forall x y, f x y = g x y) ->
  forall l a, fold_left f l a = fold_left g l a.
Proof.
  intros H l. induction l as [| b l IH]; intros a; simpl; [reflexivity |].
  rewrite H. apply IH.
Qed.

(** A profile without article, appended to the table, changes no count. *)
Lemma profiles_count_insert_user (db : DB) (username : string) (x : Article) :
  UserViewSet.profiles_count (snd (insert_user username db)) x
  = UserViewSet.profiles_count db x.
Proof.
  unfold UserViewSet.profiles_count. simpl.
  rewrite filter_app. simpl. rewrite app_nil_r. reflexivity.
Qed.

Lemma target_article_insert_user (db : DB) (username : string)
    (research : list Research) :
  UserViewSet.target_article (snd (insert_user username db)) research
  = UserViewSet.target_article db research.
Proof.
  unfold UserViewSet.target_article.
  change (UserViewSet.articles_filter (snd (insert_user username db)) research)
    with (UserViewSet.articles_filter db research).
  destruct (UserViewSet.articles_filter db research) as [| a l];
    cbn [reduce]; [reflexivity |].
  f_equal. apply fold_left_ext_in. intros x y. unfold UserViewSet.fewer.
  rewrite !profiles_count_insert_user. reflexivity.
Qed.


Lemma bind_get {B : Type} (k : DB -> M B) (db : DB) :
  bind get k db = k db db.
Proof. reflexivity. Qed.

Lemma bind_ret {A B : Type} (a : A) (k : A -> M B) (db : DB) :
  bind (ret a) k db = k a db.
Proof. reflexivity. Qed.

Lemma bind_run {A B : Type} (c : M A) (k : A -> M B) (db db' : DB) (a : A) :
  c db = (Ok a, db') -> bind c k db = k a db'.
Proof. intros H. unfold bind. rewrite H. reflexivity. Qed.

Section UserCreation.

Variable user_is_valid : DB -> UserViewSet.UserData -> bool.

(** Without a stored research, [create] answers 400 and writes nothing. *)
Lemma create_run_400 (data : UserViewSet.UserData) (db : DB) :
  UserViewSet.research_filter db (UserViewSet.data_research data) = [] ->
  UserViewSet.create user_is_valid data db
  = (Ok (JsonResponse ["Select any research type."%string] 400), db).
Proof.
  intros H. unfold UserViewSet.create, bind, get. rewrite H. reflexivity.
Qed.

(** Every way [create] can run, from the research gate on. *)
Lemma create_cases (data : UserViewSet.UserData) (db : DB) :
  db_ok db = true ->
  UserViewSet.research_filter db (UserViewSet.data_research data) <> [] ->
  let u := mkUser (next_user db) (UserViewSet.data_username data) in
  let db1 := snd (insert_user (UserViewSet.data_username data) db) in
  (user_is_valid db data = false /\
   UserViewSet.create user_is_valid data db
   = (Raise (ValidationError "user"), db)) \/
  (user_is_valid db data = true /\
   UserViewSet.target_article db
     (UserViewSet.research_filter db (UserViewSet.data_research data)) = None /\
   UserViewSet.create user_is_valid data db = (Raise reduce_TypeError, db1)) \/
  (exists target,
     user_is_valid db data = true /\
     UserViewSet.target_article db
       (UserViewSet.research_filter db (UserViewSet.data_research data))
     = Some target /\
     UserViewSet.create user_is_valid data db
     = (Raise UserSerializer.profile_TypeError,
        mkDB (researches db) (articles db) (sentences db) (users db ++ [u])
          (profiles db
           ++ [mkProfile (next_profile db) (next_user db)
                 (Some (article_id target))])
          (takes db) (milestones db) (responses db)
          (S (next_user db)) (S (next_profile db)) (next_take db)
          (next_milestone db) (next_response db))).
Proof.
  intros Hok Hres u db1.
  pose proof (db_ok_fields db Hok) as (_ & Hpid & Hpuser & _).
  unfold UserViewSet.create. rewrite bind_get.
  destruct (Nat.eqb _ 0) eqn:E0; [apply length_0_eqb in E0; contradiction |].
  destruct (user_is_valid db data) eqn:Ev;
    [right | left; split; reflexivity].
  rewrite bind_ret.
  rewrite (@bind_run _ _ (insert_user (UserViewSet.data_username data)) _
             db db1 u eq_refl).
  assert (Hprofile :
            UserViewSet.user_profile u db1
            = (Ok (mkProfile (next_profile db) (next_user db) None), db1)).
  { unfold UserViewSet.user_profile, db1.
    cbn [insert_user snd profiles user_id u].
    rewrite find_app_last;
      [reflexivity
      | intros x Hx; apply Nat.eqb_neq;
        pose proof (below_In _ _ _ _ Hpuser Hx); lia
      | apply Nat.eqb_refl]. }
  rewrite (@bind_run _ _ _ _ _ _ _ Hprofile).
  destruct (UserViewSet.data_research data) as [k |] eqn:Ek;
    [| exfalso; apply Hres; reflexivity].
  assert (Ht : UserViewSet.target_article db1
                 (UserViewSet.research_filter db1 (Some k))
               = UserViewSet.target_article db
                   (UserViewSet.research_filter db (Some k)))
    by apply target_article_insert_user.
  assert (Husr : pk_exists user_id (users db1) (user_id u) = true)
    by exact (pk_exists_app_last user_id (users db) u).
  destruct (UserViewSet.target_article db
              (UserViewSet.research_filter db (Some k)))
    as [target |] eqn:Et.
  2: { left. split; [reflexivity |]. split; [reflexivity |].
       unfold bind at 1. rewrite bind_get, Ht. reflexivity. }
  assert (Hart : pk_exists article_id (articles db1) (article_id target)
                 = true).
  { apply target_article_first_min in Et.
    destruct Et as (pre & post & Heq & _).
    assert (Hin : In target
                    (UserViewSet.articles_filter db
                       (UserViewSet.research_filter db (Some k))))
      by (rewrite Heq; apply in_elt).
    apply filter_In in Hin. unfold pk_exists. apply existsb_exists.
    exists target. split; [apply Hin | apply Nat.eqb_refl]. }
  assert (Hmap :
            map (fun p =>
                   if profile_id p =? next_profile db
                   then mkProfile (next_profile db) (next_user db)
                          (Some (article_id target))
                   else p)
              (profiles db ++ [mkProfile (next_profile db) (next_user db) None])
            = profiles db
              ++ [mkProfile (next_profile db) (next_user db)
                    (Some (article_id target))]).
  { rewrite map_app. cbn [map profile_id]. rewrite Nat.eqb_refl. f_equal.
    rewrite <- (map_id (profiles db)) at 2. apply map_ext_in. intros x Hx.
    pose proof (below_In _ _ _ _ Hpid Hx).
    destruct (Nat.eqb_spec (profile_id x) (next_profile db));
      [lia | reflexivity]. }
  right. exists target. split; [reflexivity |]. split; [reflexivity |].
  unfold bind at 1. rewrite bind_get.
  rewrite Ht. rewrite bind_get, Hart, Husr. cbn [andb]. rewrite bind_ret.
  unfold bind, update_profile, ret, UserSerializer.data, db1.
  cbn -[Nat.eqb find map app]. rewrite Hmap.
  rewrite find_app_last;
    [reflexivity
    | intros x Hx; apply Nat.eqb_neq;
      pose proof (below_In _ _ _ _ Hpuser Hx); lia
    | apply Nat.eqb_refl].
Qed.

(** The run of [create] on a stored research that owns no article, with
    user fields that validate: the reduction of the Balancer has nothing to
    start from and [create] ends in the [TypeError] that [reduce] raises on
    an empty sequence, after the user is inserted. *)
Theorem create_without_articles_raises_TypeError
    (data : UserViewSet.UserData) (db : DB) :
  db_ok db = true ->
  UserViewSet.research_filter db (UserViewSet.data_research data) <> [] ->
  user_is_valid db data = true ->
  UserViewSet.articles_filter db
    (UserViewSet.research_filter db (UserViewSet.data_research data)) = [] ->
  UserViewSet.target_article db
    (UserViewSet.research_filter db (UserViewSet.data_research data)) = None /\
  UserViewSet.create user_is_valid data db
  = (Raise
       (PyExn "TypeError" "reduce() of empty sequence with no initial value"),
     snd (insert_user (UserViewSet.data_username data) db)).
Proof.
  intros Hok Hres Hvalid Hnone.
  assert (Ht : UserViewSet.target_article db
                 (UserViewSet.research_filter db
                    (UserViewSet.data_research data)) = None)
    by (unfold UserViewSet.target_article; rewrite Hnone; reflexivity).
  split; [exact Ht |].
  destruct (@create_cases data db Hok Hres) as [[Hv _] | [(_ & _ & Hrun) | H]].
  - congruence.
  - exact Hrun.
  - destruct H as (target & _ & Ht' & _). congruence.
Qed.


End UserCreation.

(** On the sample, research 2 owns no article: creating a user for it ends
    in the [TypeError], with the user stored. *)
Lemma create_without_articles_raises_TypeError_witness :
  db_ok Sample.db = true /\
  UserViewSet.articles_filter Sample.db
    (UserViewSet.research_filter Sample.db (Some 2)) = [] /\
  UserViewSet.target_article Sample.db
    (UserViewSet.research_filter Sample.db (Some 2)) = None /\
  UserViewSet.create Sample.accept_user (UserViewSet.mkUserData (Some 2) "eve")
    Sample.db
  = (Raise
       (PyExn "TypeError" "reduce() of empty sequence with no initial value"),
     snd (insert_user "eve" Sample.db)).
Proof.
  split; [reflexivity |]. split; [reflexivity |].
  apply (@create_without_articles_raises_TypeError Sample.accept_user
           (UserViewSet.mkUserData (Some 2) "eve") Sample.db);
    try reflexivity.
  discriminate.
Defined.

(** C9.  The code on a research without articles: on the sample, research 2
    owns no article, and [create] for it raises the [TypeError] of
    [reduce], not an [EmptyCollectionError], whatever the message.  The
    reductions of [suggestions] and of take creation test for the empty
    sequence first; this one does not. *)
Lemma create_without_articles_not_EmptyCollectionError :
  UserViewSet.articles_filter Sample.db
    (UserViewSet.research_filter Sample.db (Some 2)) = [] /\
  fst (UserViewSet.create Sample.accept_user
         (UserViewSet.mkUserData (Some 2) "eve") Sample.db)
  = Raise
      (PyExn "TypeError" "reduce() of empty sequence with no initial value") /\
  forall msg,
    fst (UserViewSet.create Sample.accept_user
           (UserViewSet.mkUserData (Some 2) "eve") Sample.db)
    <> Raise (PyExn "EmptyCollectionError" msg).
Proof.
  split; [reflexivity |]. split; [reflexivity |].
  intros msg. vm_compute. discriminate.
Qed.


(** ** The [suggestions] view *)

Lemma latest_milestone_in (db : DB) (take : Take) (m : Milestone) :
  Resolver.latest_milestone db take = Some m ->
  In m (Resolver.milestones_flatten db take).
Proof.
  unfold Resolver.latest_milestone. destruct (Nat.eqb _ 0); [discriminate |].
  intros H.
  apply (@reduce_first_max _ milestone_response_at _ later_spec) in H.
  destruct H as (pre & post & -> & _). apply in_elt.
Qed.

Lemma latest_milestone_has_responses (db : DB) (take : Take) (m : Milestone) :
  Resolver.latest_milestone db take = Some m ->
  Resolver.milestone_responses db m <> [].
Proof.
  intros H. apply latest_milestone_in in H.
  unfold Resolver.milestones_flatten in H. apply in_flatten in H.
  destruct H as (t & _ & H). unfold Resolver.eligible_milestones in H.
  apply filter_In in H. destruct H as [_ H].
  unfold Resolver.has_responses in H. apply negb_true_iff in H.
  intros E. rewrite E in H. discriminate.
Qed.

(** X1.  On a stored take, [suggestions] writes nothing and answers with a
    list of stored responses that all belong to the one milestone the
    Resolver chose; the list is empty exactly when the Resolver has no
    candidate. *)
Theorem suggestions_reply (key : pk) (db : DB) (take : Take) :
  find (fun t => take_id t =? key) (takes db) = Some take ->
  exists rs,
    TakeBindMilestoneViewSet.suggestions key db = (Ok (HTTPResponse rs), db) /\
    (rs = [] <-> Resolver.milestones_flatten db take = []) /\
    (forall r, In r rs ->
       exists m,
         Resolver.latest_milestone db take = Some m /\
         In r (responses db) /\ response_milestone r = milestone_id m).
Proof.
  intros Hfind.
  unfold TakeBindMilestoneViewSet.suggestions,
    TakeBindMilestoneViewSet.get_object, bind, get, ret.
  rewrite Hfind.
  destruct (Resolver.latest_milestone db take) as [m |] eqn:E.
  - exists (Resolver.milestone_responses db m). split; [reflexivity |]. split.
    + split.
      * intros H. exfalso.
        exact (latest_milestone_has_responses _ _ E H).
      * intros H. apply latest_milestone_in in E. rewrite H in E.
        destruct E.
    + intros r Hr. exists m. split; [reflexivity |].
      unfold Resolver.milestone_responses in Hr. apply filter_In in Hr.
      destruct Hr as [Hin Heq]. apply Nat.eqb_eq in Heq. tauto.
  - exists []. split; [reflexivity |]. split.
    + split; [intros _ | reflexivity].
      unfold Resolver.latest_milestone in E.
      destruct (Nat.eqb _ 0) eqn:E0; [apply length_0_eqb; exact E0 |].
      apply reduce_None in E. exact E.
    + intros r [].
Qed.

(** On the sample, take 1 (article 1) is offered the two responses of
    milestone 2, of take 2 on article 2. *)
Lemma suggestions_reply_witness :
  TakeBindMilestoneViewSet.suggestions 1 Sample.db
  = (Ok (HTTPResponse [mkResponse 2 2 2 2 21; mkResponse 3 2 2 2 22]),
     Sample.db) /\
  exists rs,
    TakeBindMilestoneViewSet.suggestions 1 Sample.db
    = (Ok (HTTPResponse rs), Sample.db) /\
    (rs = [] <->
     Resolver.milestones_flatten Sample.db (mkTake 1 1 1 1 None) = []) /\
    (forall r, In r rs ->
       exists m,
         Resolver.latest_milestone Sample.db (mkTake 1 1 1 1 None) = Some m /\
         In r (responses Sample.db) /\ response_milestone r = milestone_id m).
Proof.
  split; [reflexivity |].
  apply (@suggestions_reply 1 Sample.db (mkTake 1 1 1 1 None)). reflexivity.
Defined.

(** ** The runs of [renew_milestone] *)

Section RenewalRuns.

Variable milestone_is_valid :
  DB -> pk -> TakeBindMilestoneViewSet.RenewData -> bool.

(** X2.  A key that names no stored take makes both detail routes raise
    [Http404], and neither writes anything. *)
Theorem detail_routes_missing_take (user : pk) (now : datetime)
    (data : TakeBindMilestoneViewSet.RenewData) (key : pk) (db : DB) :
  (forall t, In t (takes db) -> take_id t <> key) ->
  TakeBindMilestoneViewSet.suggestions key db
  = (Raise (PyExn "Http404" "Not found."), db) /\
  TakeBindMilestoneViewSet.renew_milestone milestone_is_valid user now data
    key db
  = (Raise (PyExn "Http404" "Not found."), db).
Proof.
  intros Hnone.
  assert (Hfind : find (fun t => take_id t =? key) (takes db) = None).
  { destruct (find _ (takes db)) as [t |] eqn:E; [| reflexivity].
    apply find_some in E. destruct E as [Hin Heq]. apply Nat.eqb_eq in Heq.
    exfalso. exact (Hnone t Hin Heq). }
  unfold TakeBindMilestoneViewSet.suggestions,
    TakeBindMilestoneViewSet.renew_milestone,
    TakeBindMilestoneViewSet.get_object, bind.
  rewrite Hfind. split; reflexivity.
Qed.

(** The run of [renew_milestone] when the milestone columns are refused. *)
Lemma renew_milestone_run_invalid (user : pk) (now : datetime)
    (data : TakeBindMilestoneViewSet.RenewData) (key : pk) (db : DB)
    (take : Take) :
  find (fun t => take_id t =? key) (takes db) = Some take ->
  milestone_is_valid db (take_id take) data = false ->
  TakeBindMilestoneViewSet.renew_milestone milestone_is_valid user now data
    key db
  = (Raise (ValidationError "milestone"), db).
Proof.
  intros Hfind Hv.
  unfold TakeBindMilestoneViewSet.renew_milestone, bind at 1,
    TakeBindMilestoneViewSet.get_object.
  rewrite Hfind. unfold bind at 1, get at 1. unfold bind at 1.
  rewrite Hv. reflexivity.
Qed.

(** The run of [renew_milestone] when a sentence key is refused: the
    milestone is already written. *)
Lemma renew_milestone_run_refused (user : pk) (now : datetime)
    (data : TakeBindMilestoneViewSet.RenewData) (key : pk) (db : DB)
    (take : Take) :
  find (fun t => take_id t =? key) (takes db) = Some take ->
  milestone_is_valid db (take_id take) data = true ->
  forallb (pk_exists sentence_id (sentences db))
    (TakeBindMilestoneViewSet.sentences_of data) = false ->
  TakeBindMilestoneViewSet.renew_milestone milestone_is_valid user now data
    key db
  = (Raise (ValidationError "responses"),
     snd (insert_milestone user (take_id take)
            (TakeBindMilestoneViewSet.data_found data)
            (TakeBindMilestoneViewSet.data_copied_from data) now db)).
Proof.
  intros Hfind Hv Hsent.
  pose proof (find_pk_exists take_id _ _ Hfind) as [Hkey Htake].
  rewrite <- Hkey in Htake.
  unfold TakeBindMilestoneViewSet.renew_milestone, bind at 1,
    TakeBindMilestoneViewSet.get_object.
  rewrite Hfind. unfold bind at 1, get at 1. unfold bind at 1.
  rewrite Hv. unfold ret at 1. unfold bind at 1, insert_milestone.
  unfold bind at 1, get at 1. unfold bind at 1.
  cbn [milestone_id].
  rewrite response_form_is_valid_map;
    [| exact Htake
     | exact (pk_exists_app_last milestone_id (milestones db)
                (mkMilestone (next_milestone db) user (take_id take)
                   (TakeBindMilestoneViewSet.data_found data)
                   (TakeBindMilestoneViewSet.data_copied_from data) now))].
  cbn [sentences]. rewrite Hsent. reflexivity.
Qed.

End RenewalRuns.

(** ** The integrity of the database is kept *)

Lemma below_intro {R : Type} (k : R -> pk) (bound : pk) (table : list R) :
  (forall r, In r table -> k r < bound) -> below k bound table = true.
Proof.
  intros H. unfold below. apply forallb_forall. intros r Hr.
  apply Nat.ltb_lt. apply H. exact Hr.
Qed.

Lemma below_app {R : Type} (k : R -> pk) (bound bound' : pk)
    (table rows : list R) :
  below k bound table = true -> bound <= bound' ->
  (forall r, In r rows -> k r < bound') ->
  below k bound' (table ++ rows) = true.
Proof.
  intros Hold Hle Hnew. apply below_intro. intros r Hr.
  apply in_app_or in Hr. destruct Hr as [Hr | Hr].
  - pose proof (below_In _ _ _ _ Hold Hr). lia.
  - apply Hnew. exact Hr.
Qed.

Lemma below_mono {R : Type} (k : R -> pk) (bound bound' : pk)
    (table : list R) :
  below k bound table = true -> bound <= bound' ->
  below k bound' table = true.
Proof.
  intros Hold Hle. apply below_intro. intros r Hr.
  pose proof (below_In _ _ _ _ Hold Hr). lia.
Qed.

Lemma db_ok_intro (db : DB) :
  below user_id (next_user db) (users db) = true ->
  below profile_id (next_profile db) (profiles db) = true ->
  below profile_user (next_user db) (profiles db) = true ->
  below take_id (next_take db) (takes db) = true ->
  below milestone_id (next_milestone db) (milestones db) = true ->
  below milestone_take (next_take db) (milestones db) = true ->
  below response_id (next_response db) (responses db) = true ->
  below response_milestone (next_milestone db) (responses db) = true ->
  db_ok db = true.
Proof.
  intros H1 H2 H3 H4 H5 H6 H7 H8. unfold db_ok.
  rewrite H1, H2, H3, H4, H5, H6, H7, H8. reflexivity.
Qed.

Lemma in_singleton {A : Type} (a x : A) : In x [a] -> x = a.
Proof. intros [H | []]. symmetry. exact H. Qed.


Lemma saved_rows_below (user take milestone start : pk) (l : list pk)
    (r : Response) :
  In r (saved_rows user start
          (map (fun s =>
                  TakeBindMilestoneViewSet.mkResponseForm take milestone s) l)) ->
  response_id r < start + length l /\ response_milestone r = milestone.
Proof.
  intros Hr. destruct (saved_rows_map user take milestone l start)
    as (Hid & _ & Hown).
  split; [| apply Hown in Hr; tauto].
  assert (H : In (response_id r) (seq start (length l))).
  { rewrite <- Hid. apply in_map. exact Hr. }
  apply in_seq in H. lia.
Qed.

Lemma insert_milestone_ok (user take : pk) (found : option datetime)
    (copied_from : option pk) (now : datetime) (db : DB) :
  db_ok db = true -> take < next_take db ->
  db_ok (snd (insert_milestone user take found copied_from now db)) = true.
Proof.
  intros Hok Htake.
  pose proof (db_ok_fields db Hok) as (H1 & H2 & H3 & H4 & H5 & H6 & H7 & H8).
  apply db_ok_intro; cbn -[below Nat.add]; try assumption.
  - eapply below_app; [exact H5 | lia |].
    intros r Hr. apply in_singleton in Hr. subst r. cbn. lia.
  - eapply below_app; [exact H6 | lia |].
    intros r Hr. apply in_singleton in Hr. subst r. cbn. exact Htake.
  - eapply below_mono; [exact H8 | lia].
Qed.



Section RenewalIntegrity.

Variable milestone_is_valid :
  DB -> pk -> TakeBindMilestoneViewSet.RenewData -> bool.

Lemma renew_milestone_run_404 (user : pk) (now : datetime)
    (data : TakeBindMilestoneViewSet.RenewData) (key : pk) (db : DB) :
  find (fun t => take_id t =? key) (takes db) = None ->
  TakeBindMilestoneViewSet.renew_milestone milestone_is_valid user now data
    key db = (Raise Http404, db).
Proof.
  intros Hfind.
  unfold TakeBindMilestoneViewSet.renew_milestone,
    TakeBindMilestoneViewSet.get_object, bind.
  rewrite Hfind. reflexivity.
Qed.

(** X4.  When the milestone columns validate but some sentence key names no
    stored sentence, [renew_milestone] raises [ValidationError] only after
    the new milestone is written: the milestone table has gained that row,
    no response is written, and the new milestone has no responses. *)
Theorem renew_milestone_refused_keeps_milestone (user : pk) (now : datetime)
    (data : TakeBindMilestoneViewSet.RenewData) (key : pk) (db : DB)
    (take : Take) :
  db_ok db = true ->
  find (fun t => take_id t =? key) (takes db) = Some take ->
  milestone_is_valid db (take_id take) data = true ->
  (exists s, In s (TakeBindMilestoneViewSet.sentences_of data) /\
             forall x, In x (sentences db) -> sentence_id x <> s) ->
  exists msg db',
    TakeBindMilestoneViewSet.renew_milestone milestone_is_valid user now data
      key db = (Raise (PyExn "ValidationError" msg), db') /\
    milestones db'
    = milestones db
      ++ [mkMilestone (next_milestone db) user (take_id take)
            (TakeBindMilestoneViewSet.data_found data)
            (TakeBindMilestoneViewSet.data_copied_from data) now] /\
    responses db' = responses db /\
    takes db' = takes db /\
    Resolver.milestone_responses db'
      (mkMilestone (next_milestone db) user (take_id take)
         (TakeBindMilestoneViewSet.data_found data)
         (TakeBindMilestoneViewSet.data_copied_from data) now) = [].
Proof.
  intros Hok Hfind Hvalid (s & Hs & Hnone).
  assert (Hsent : forallb (pk_exists sentence_id (sentences db))
                    (TakeBindMilestoneViewSet.sentences_of data) = false).
  { destruct (forallb _ _) eqn:E; [| reflexivity].
    rewrite forallb_forall in E. specialize (E s Hs).
    unfold pk_exists in E. apply existsb_exists in E.
    destruct E as (x & Hx & Heq). apply Nat.eqb_eq in Heq.
    exfalso. exact (Hnone x Hx Heq). }
  rewrite (@renew_milestone_run_refused milestone_is_valid user now data key
             db take Hfind Hvalid Hsent).
  eexists _, _. split; [reflexivity |]. cbn [snd insert_milestone milestones
    responses takes].
  repeat (split; [reflexivity |]).
  unfold Resolver.milestone_responses. cbn [responses milestone_id].
  apply filter_at_bound. apply db_ok_fields in Hok. tauto.
Qed.

(** X5.  Whatever way a run of [renew_milestone] ends (404, a refused
    milestone, a refused sentence key, success), it keeps the integrity of
    the database. *)
Theorem renew_milestone_keeps_db_ok (user : pk) (now : datetime)
    (data : TakeBindMilestoneViewSet.RenewData) (key : pk) (db : DB) :
  db_ok db = true ->
  db_ok (snd (TakeBindMilestoneViewSet.renew_milestone milestone_is_valid
                user now data key db)) = true.
Proof.
  intros Hok.
  pose proof (db_ok_fields db Hok) as (H1 & H2 & H3 & H4 & H5 & H6 & H7 & H8).
  destruct (find (fun t => take_id t =? key) (takes db)) as [take |] eqn:Hfind.
  - assert (Htake : take_id take < next_take db).
    { apply find_some in Hfind. eapply below_In; [exact H4 | tauto]. }
    destruct (milestone_is_valid db (take_id take) data) eqn:Hv.
    + destruct (forallb (pk_exists sentence_id (sentences db))
                  (TakeBindMilestoneViewSet.sentences_of data)) eqn:Hsent.
      * rewrite (@renew_milestone_run milestone_is_valid user now data key db
                   take Hok Hfind Hv Hsent).
        apply db_ok_intro; cbn -[below Nat.add]; try assumption.
        -- eapply below_app; [exact H5 | lia |].
           intros r Hr. apply in_singleton in Hr. subst r. cbn. lia.
        -- eapply below_app; [exact H6 | lia |].
           intros r Hr. apply in_singleton in Hr. subst r. cbn. exact Htake.
        -- eapply below_app; [exact H7 | lia |].
           intros r Hr. apply saved_rows_below in Hr. tauto.
        -- eapply below_app; [exact H8 | lia |].
           intros r Hr. apply saved_rows_below in Hr. lia.
      * rewrite (@renew_milestone_run_refused milestone_is_valid user now data
                   key db take Hfind Hv Hsent).
        apply insert_milestone_ok; assumption.
    + rewrite (@renew_milestone_run_invalid milestone_is_valid user now data
                 key db take Hfind Hv). exact Hok.
  - rewrite (@renew_milestone_run_404 user now data key db Hfind). exact Hok.
Qed.

End RenewalIntegrity.

Lemma detail_routes_missing_take_witness :
  (forall t, In t (takes Sample.db) -> take_id t <> 9) /\
  TakeBindMilestoneViewSet.suggestions 9 Sample.db
  = (Raise (PyExn "Http404" "Not found."), Sample.db) /\
  TakeBindMilestoneViewSet.renew_milestone Sample.accept_milestone 1 100%Z
    (TakeBindMilestoneViewSet.mkRenewData (Some [11]) None None) 9 Sample.db
  = (Raise (PyExn "Http404" "Not found."), Sample.db).
Proof.
  assert (H : forall t, In t (takes Sample.db) -> take_id t <> 9).
  { intros t Ht. simpl in Ht. destruct Ht as [<- | [<- | []]]; discriminate. }
  split; [exact H |].
  exact (@detail_routes_missing_take Sample.accept_milestone 1 100%Z
           (TakeBindMilestoneViewSet.mkRenewData (Some [11]) None None) 9
           Sample.db H).
Defined.

(** On the sample, sentence 99 is unknown: the renewal of take 1 with
    sentences 11 and 99 is refused, milestone 6 stays and has no response. *)
Lemma renew_milestone_refused_keeps_milestone_witness :
  exists msg db',
    TakeBindMilestoneViewSet.renew_milestone Sample.accept_milestone 1 100%Z
      (TakeBindMilestoneViewSet.mkRenewData (Some [11; 99]) None None) 1
      Sample.db = (Raise (PyExn "ValidationError" msg), db') /\
    milestones db'
    = milestones Sample.db ++ [mkMilestone 6 1 1 None None 100%Z] /\
    responses db' = responses Sample.db /\
    takes db' = takes Sample.db /\
    Resolver.milestone_responses db' (mkMilestone 6 1 1 None None 100%Z) = [].
Proof.
  apply (@renew_milestone_refused_keeps_milestone Sample.accept_milestone 1
           100%Z
           (TakeBindMilestoneViewSet.mkRenewData (Some [11; 99]) None None)
           1 Sample.db (mkTake 1 1 1 1 None)); try reflexivity.
  exists 99. split; [simpl; tauto |].
  intros x Hx. simpl in Hx.
  destruct Hx as [<- | [<- | [<- | [<- | []]]]]; discriminate.
Defined.

Lemma renew_milestone_keeps_db_ok_witness :
  db_ok Sample.db = true /\
  db_ok (snd (TakeBindMilestoneViewSet.renew_milestone
                Sample.accept_milestone 1 100%Z
                (TakeBindMilestoneViewSet.mkRenewData (Some [12; 12; 11]) None
                   None) 1 Sample.db)) = true.
Proof.
  split; [reflexivity |].
  apply (@renew_milestone_keeps_db_ok Sample.accept_milestone 1 100%Z
           (TakeBindMilestoneViewSet.mkRenewData (Some [12; 12; 11]) None None)
           1 Sample.db).
  reflexivity.
Defined.

(** ** After a user is created *)

Lemma find_unique {R : Type} (id_of : R -> pk) (table : list R) (a : R) :
  NoDup (map id_of table) -> In a table ->
  find (fun x => id_of x =? id_of a) table = Some a.
Proof.
  induction table as [| b table IH]; simpl; intros Hnd Hin; [destruct Hin |].
  inversion Hnd as [| ? ? Hnotin Hnd']; subst.
  destruct Hin as [-> | Hin].
  - rewrite Nat.eqb_refl. reflexivity.
  - destruct (Nat.eqb_spec (id_of b) (id_of a)) as [Heq | _].
    + exfalso. apply Hnotin. rewrite Heq. apply in_map. exact Hin.
    + apply IH; assumption.
Qed.

Lemma target_article_of_research (db : DB) (k : pk) (target : Article) :
  UserViewSet.target_article db (UserViewSet.research_filter db (Some k))
  = Some target ->
  In target (articles db) /\ article_research target = k /\
  exists r, In r (researches db) /\ research_id r = k.
Proof.
  intros H. apply target_article_first_min in H.
  destruct H as (pre & post & Heq & _).
  assert (Hin : In target
                  (UserViewSet.articles_filter db
                     (UserViewSet.research_filter db (Some k))))
    by (rewrite Heq; apply in_elt).
  unfold UserViewSet.articles_filter in Hin. apply filter_In in Hin.
  destruct Hin as [Hin Hex]. unfold pk_exists in Hex.
  apply existsb_exists in Hex. destruct Hex as (r & Hr & Heqr).
  apply Nat.eqb_eq in Heqr. simpl in Hr. apply filter_In in Hr.
  destruct Hr as [Hr Hk]. apply Nat.eqb_eq in Hk.
  split; [exact Hin |]. split; [congruence |]. exists r. tauto.
Qed.

Section AfterCreation.

Variable user_is_valid : DB -> UserViewSet.UserData -> bool.

(** X6.  Whatever way a run of [UserViewSet.create] ends (400, refused
    fields, the [TypeError] of an empty research, the [TypeError] of
    [serializer.data] after the assignment), it keeps the
    integrity of the database. *)
Theorem create_user_keeps_db_ok (data : UserViewSet.UserData) (db : DB) :
  db_ok db = true ->
  db_ok (snd (UserViewSet.create user_is_valid data db)) = true.
Proof.
  intros Hok.
  pose proof (db_ok_fields db Hok) as (H1 & H2 & H3 & H4 & H5 & H6 & H7 & H8).
  destruct (UserViewSet.research_filter db (UserViewSet.data_research data))
    as [| r0 rs] eqn:Er.
  - rewrite (@create_run_400 user_is_valid data db Er). exact Hok.
  - assert (Hres : UserViewSet.research_filter db
                     (UserViewSet.data_research data) <> [])
      by (rewrite Er; discriminate).
    destruct (@create_cases user_is_valid data db Hok Hres)
      as [[_ Hc] | [(_ & _ & Hc) | (target & _ & _ & Hc)]];
      rewrite Hc; [exact Hok | |];
      apply db_ok_intro; cbn -[below Nat.add]; try assumption.
    + eapply below_app; [exact H1 | lia |].
      intros r Hr. apply in_singleton in Hr. subst r. cbn. lia.
    + eapply below_app; [exact H2 | lia |].
      intros r Hr. apply in_singleton in Hr. subst r. cbn. lia.
    + eapply below_app; [exact H3 | lia |].
      intros r Hr. apply in_singleton in Hr. subst r. cbn. lia.
    + eapply below_app; [exact H1 | lia |].
      intros r Hr. apply in_singleton in Hr. subst r. cbn. lia.
    + eapply below_app; [exact H2 | lia |].
      intros r Hr. apply in_singleton in Hr. subst r. cbn. lia.
    + eapply below_app; [exact H3 | lia |].
      intros r Hr. apply in_singleton in Hr. subst r. cbn. lia.
Qed.

(** The run of [create] that gets past the gate, the validation and the
    Balancer: the user is stored, its profile carries the chosen article,
    and [serializer.data] raises. *)
Lemma create_run_assigned (data : UserViewSet.UserData) (db : DB)
    (target : Article) :
  db_ok db = true ->
  user_is_valid db data = true ->
  UserViewSet.target_article db
    (UserViewSet.research_filter db (UserViewSet.data_research data))
  = Some target ->
  UserViewSet.create user_is_valid data db
  = (Raise UserSerializer.profile_TypeError,
     mkDB (researches db) (articles db) (sentences db)
       (users db ++ [mkUser (next_user db) (UserViewSet.data_username data)])
       (profiles db
        ++ [mkProfile (next_profile db) (next_user db)
              (Some (article_id target))])
       (takes db) (milestones db) (responses db)
       (S (next_user db)) (S (next_profile db)) (next_take db)
       (next_milestone db) (next_response db)).
Proof.
  intros Hok Hv Ht.
  assert (Hres : UserViewSet.research_filter db
                   (UserViewSet.data_research data) <> []).
  { intros E. rewrite E in Ht.
    unfold UserViewSet.target_article, UserViewSet.articles_filter in Ht.
    rewrite (filter_nil_when _ (articles db)) in Ht
      by (intros x _; reflexivity).
    discriminate. }
  destruct (@create_cases user_is_valid data db Hok Hres)
    as [[Hv' _] | [(_ & Ht' & _) | (target' & _ & Ht' & Hc)]];
    congruence.
Qed.

(** X7.  A run of [create] that gets past the gate, the validation and the
    Balancer raises the profile count of the article the Balancer chose by
    exactly one and leaves every other article's count, and the article
    table, as they were. *)
Theorem create_user_counts (data : UserViewSet.UserData) (db : DB)
    (target : Article) :
  db_ok db = true ->
  user_is_valid db data = true ->
  UserViewSet.target_article db
    (UserViewSet.research_filter db (UserViewSet.data_research data))
  = Some target ->
  articles (snd (UserViewSet.create user_is_valid data db)) = articles db /\
  forall x,
    length
      (filter (fun p =>
                 match profile_article p with
                 | Some a => a =? article_id x
                 | None => false
                 end)
         (profiles (snd (UserViewSet.create user_is_valid data db))))
    = if article_id x =? article_id target
      then S (UserViewSet.profiles_count db x)
      else UserViewSet.profiles_count db x.
Proof.
  intros Hok Hv Ht. rewrite (@create_run_assigned data db target Hok Hv Ht).
  cbn [snd articles profiles]. split; [reflexivity |].
  intros x. unfold UserViewSet.profiles_count.
  rewrite filter_app, length_app. cbn [filter profile_article].
  rewrite (Nat.eqb_sym (article_id target) (article_id x)).
  destruct (article_id x =? article_id target); cbn [length]; lia.
Qed.

(** X8.  After a run of [create] for research [k] that gets past the gate,
    the validation and the Balancer, with article keys that are unique,
    [ProfileSerializer.research_id] on the stored user's profile answers
    [k]: the user is assigned inside the research asked for. *)
Theorem create_user_research_id (data : UserViewSet.UserData) (db : DB)
    (k : pk) (target : Article) (profile : Profile) :
  db_ok db = true ->
  NoDup (map article_id (articles db)) ->
  UserViewSet.data_research data = Some k ->
  user_is_valid db data = true ->
  UserViewSet.target_article db (UserViewSet.research_filter db (Some k))
  = Some target ->
  UserViewSet.user_profile
    (mkUser (next_user db) (UserViewSet.data_username data))
    (snd (UserViewSet.create user_is_valid data db))
  = (Ok profile, snd (UserViewSet.create user_is_valid data db)) ->
  profile_article profile = Some (article_id target) /\
  ProfileSerializer.research_id profile
    (snd (UserViewSet.create user_is_valid data db))
  = (Ok (Some k), snd (UserViewSet.create user_is_valid data db)).
Proof.
  intros Hok Hnd Hk Hv Ht Hprofile.
  pose proof (db_ok_fields db Hok) as (_ & _ & Hpuser & _).
  assert (Ht' : UserViewSet.target_article db
                  (UserViewSet.research_filter db
                     (UserViewSet.data_research data)) = Some target)
    by (rewrite Hk; exact Ht).
  rewrite (@create_run_assigned data db target Hok Hv Ht') in *. cbn [snd] in *.
  apply target_article_of_research in Ht.
  destruct Ht as (Hin & Hres_k & r & Hr & Hrk).
  unfold UserViewSet.user_profile in Hprofile.
  cbn [profiles user_id] in Hprofile.
  rewrite find_app_last in Hprofile;
    [| intros x Hx; apply Nat.eqb_neq;
       pose proof (below_In _ _ _ _ Hpuser Hx); lia
     | apply Nat.eqb_refl].
  injection Hprofile as <-. split; [reflexivity |].
  unfold ProfileSerializer.research_id. cbn [profile_article articles].
  rewrite (find_unique article_id (articles db) target Hnd Hin).
  cbn [researches]. rewrite Hres_k.
  destruct (find (fun r1 => research_id r1 =? k) (researches db))
    as [r1 |] eqn:Ef.
  - apply find_some in Ef. destruct Ef as [_ Ef].
    apply Nat.eqb_eq in Ef. rewrite Ef. reflexivity.
  - exfalso. pose proof (find_none _ _ Ef r Hr) as Hn. cbn in Hn.
    apply Nat.eqb_neq in Hn. exact (Hn Hrk).
Qed.

End AfterCreation.

Lemma create_user_keeps_db_ok_witness :
  db_ok Sample.db = true /\
  db_ok (snd (UserViewSet.create Sample.accept_user
                (UserViewSet.mkUserData (Some 1) "eve") Sample.db)) = true.
Proof.
  split; [reflexivity |].
  apply (@create_user_keeps_db_ok Sample.accept_user
           (UserViewSet.mkUserData (Some 1) "eve") Sample.db).
  reflexivity.
Defined.

(** On the sample, user 5 goes to article 2, whose count goes from 1 to 2. *)
Lemma create_user_counts_witness :
  UserViewSet.profiles_count Sample.db (mkArticle 2 1) = 1 /\
  length
    (filter (fun p =>
               match profile_article p with
               | Some a => a =? 2
               | None => false
               end)
       (profiles
          (snd (UserViewSet.create Sample.accept_user
                  (UserViewSet.mkUserData (Some 1) "eve") Sample.db)))) = 2.
Proof.
  split; [reflexivity |].
  exact (proj2
    (@create_user_counts Sample.accept_user
       (UserViewSet.mkUserData (Some 1) "eve") Sample.db (mkArticle 2 1)
       eq_refl eq_refl eq_refl) (mkArticle 2 1)).
Defined.

Lemma create_user_research_id_witness :
  ProfileSerializer.research_id (mkProfile 5 5 (Some 2))
    (snd (UserViewSet.create Sample.accept_user
            (UserViewSet.mkUserData (Some 1) "eve") Sample.db))
  = (Ok (Some 1),
     snd (UserViewSet.create Sample.accept_user
            (UserViewSet.mkUserData (Some 1) "eve") Sample.db)).
Proof.
  apply (@create_user_research_id Sample.accept_user
           (UserViewSet.mkUserData (Some 1) "eve") Sample.db 1
           (mkArticle 2 1) (mkProfile 5 5 (Some 2)));
    try reflexivity.
  simpl. repeat constructor; simpl; intuition discriminate.
Defined.

(** ** Take creation and the Resolver *)

(** X9.  A milestone written by [TakeBindMilestoneSerializer.create] is
    never a candidate afterwards, neither of the Resolver nor of a later
    take creation: it is a copy, or it has no [found] marker.  Copies are
    not copied again. *)
Theorem created_milestone_never_source (user : pk) (now : datetime)
    (vd : TakeBindMilestoneSerializer.ValidatedData) (db : DB)
    (m : Milestone) :
  In m (milestones (snd (TakeBindMilestoneSerializer.create user now vd db))) ->
  ~ In m (milestones db) ->
  (forall ref,
      ~ In m (Resolver.milestones_flatten
                (snd (TakeBindMilestoneSerializer.create user now vd db))
                ref)) /\
  (forall vd',
      ~ In m (TakeBindMilestoneSerializer.milestones_flatten
                (snd (TakeBindMilestoneSerializer.create user now vd db))
                vd')).
Proof.
  intros Hin Hnew.
  assert (Hm : milestone_copied_from m <> None \/ milestone_found m = None).
  { destruct (TakeBindMilestoneSerializer.latest_milestone db vd)
      as [source |] eqn:E.
    - rewrite (create_run_seeded user now vd db E) in Hin.
      cbn [snd milestones] in Hin. apply in_app_or in Hin.
      destruct Hin as [Hin | Hin]; [contradiction |].
      apply in_singleton in Hin. subst m. left. discriminate.
    - rewrite (create_run_empty user now vd db E) in Hin.
      cbn [snd milestones] in Hin. apply in_app_or in Hin.
      destruct Hin as [Hin | Hin]; [contradiction |].
      apply in_singleton in Hin. subst m. right. reflexivity. }
  split.
  - intros ref H. unfold Resolver.milestones_flatten in H.
    apply in_flatten in H. destruct H as (t & _ & H).
    apply eligible_milestones_iff in H. tauto.
  - intros vd' H. apply seeding_flatten_iff in H.
    destruct H as (t & H). tauto.
Qed.

(** On the sample, milestone 6, the copy made for a take on article 1, is
    no candidate for a take on article 2. *)
Lemma created_milestone_never_source_witness :
  In (mkMilestone 6 3 3 (Some 12%Z) (Some 5) 100%Z)
    (milestones
       (snd (TakeBindMilestoneSerializer.create 3 100%Z
               (TakeBindMilestoneSerializer.mkValidatedData 1 1 None)
               Sample.db))) /\
  ~ In (mkMilestone 6 3 3 (Some 12%Z) (Some 5) 100%Z)
      (Resolver.milestones_flatten
         (snd (TakeBindMilestoneSerializer.create 3 100%Z
                 (TakeBindMilestoneSerializer.mkValidatedData 1 1 None)
                 Sample.db))
         (mkTake 2 2 2 1 None)).
Proof.
  assert (Hin : In (mkMilestone 6 3 3 (Some 12%Z) (Some 5) 100%Z)
                  (milestones
                     (snd (TakeBindMilestoneSerializer.create 3 100%Z
                             (TakeBindMilestoneSerializer.mkValidatedData 1 1
                                None) Sample.db)))).
  { vm_compute. tauto. }
  split; [exact Hin |].
  apply (proj1 (@created_milestone_never_source 3 100%Z
                  (TakeBindMilestoneSerializer.mkValidatedData 1 1 None)
                  Sample.db (mkMilestone 6 3 3 (Some 12%Z) (Some 5) 100%Z)
                  Hin
                  ltac:(simpl; intuition discriminate))).
Defined.

(** Appending a take, one milestone of it that is no candidate, and
    responses of that milestone, leaves the Resolver's candidates as they
    were. *)
Lemma flatten_stable (db db' : DB) (ref t : Take) (m : Milestone)
    (rows : list Response) :
  db_ok db = true ->
  takes db' = takes db ++ [t] ->
  milestones db' = milestones db ++ [m] ->
  responses db' = responses db ++ rows ->
  take_id t = next_take db -> milestone_take m = next_take db ->
  (milestone_copied_from m <> None \/ milestone_found m = None) ->
  (forall r, In r rows -> response_milestone r = next_milestone db) ->
  Resolver.milestones_flatten db' ref = Resolver.milestones_flatten db ref.
Proof.
  intros Hok Ht Hms Hrs Htid Hmt Hm Hrows.
  pose proof (db_ok_fields db Hok) as (_ & _ & _ & H4 & H5 & H6 & _ & _).
  assert (Hold : forall x, In x (takes db) ->
                   Resolver.eligible_milestones db' x
                   = Resolver.eligible_milestones db x).
  { intros x Hx. pose proof (below_In _ _ _ _ H4 Hx) as Hlt.
    unfold Resolver.eligible_milestones, Resolver.take_milestones.
    rewrite Hms, filter_app. cbn [filter].
    replace (milestone_take m =? take_id x) with false
      by (symmetry; apply Nat.eqb_neq; lia).
    rewrite app_nil_r. apply filter_ext_in. intros m0 Hm0.
    apply filter_In in Hm0. destruct Hm0 as [Hm0 _].
    apply filter_In in Hm0. destruct Hm0 as [Hm0 _].
    apply filter_In in Hm0. destruct Hm0 as [Hm0 _].
    unfold Resolver.has_responses, Resolver.milestone_responses.
    rewrite Hrs.
    rewrite (@old_milestone_responses db (milestone_id m0) rows);
      [reflexivity | eapply below_In; [exact H5 | exact Hm0] | exact Hrows]. }
  assert (Hnew : Resolver.eligible_milestones db' t = []).
  { unfold Resolver.eligible_milestones, Resolver.take_milestones.
    rewrite Hms, Htid, (new_take_milestones db m Hok Hmt). cbn [filter].
    destruct Hm as [Hm | Hm].
    - destruct (milestone_copied_from m); [reflexivity | contradiction].
    - destruct (milestone_copied_from m); [reflexivity |].
      cbn [is_None filter]. rewrite Hm. reflexivity. }
  unfold Resolver.milestones_flatten, Resolver.related_takes.
  rewrite Ht, !filter_app, map_app, concat_app.
  fold (Resolver.related_takes db ref).
  rewrite (map_ext_in (Resolver.eligible_milestones db')
             (Resolver.eligible_milestones db)).
  - cbn [filter].
    destruct (negb (take_article t =? take_article ref)); cbn [filter];
      [destruct (take_question t =? take_question ref) |];
      cbn [map concat]; rewrite ?Hnew, ?app_nil_r; reflexivity.
  - intros x Hx. apply Hold. apply related_takes_iff in Hx. tauto.
Qed.

Lemma find_app_first {A : Type} (f : A -> bool) (l l' : list A) (a : A) :
  find f l = Some a -> find f (l ++ l') = Some a.
Proof.
  induction l as [| b l IH]; simpl; [discriminate |].
  destruct (f b); [trivial | exact IH].
Qed.

(** X10.  Creating a take changes no answer of the Resolver: for every
    reference take the chosen milestone is the one chosen before, and
    [suggestions] on a take stored before answers as before. *)
Theorem create_take_keeps_suggestions (user : pk) (now : datetime)
    (vd : TakeBindMilestoneSerializer.ValidatedData) (db : DB) :
  db_ok db = true ->
  (forall ref,
      Resolver.latest_milestone
        (snd (TakeBindMilestoneSerializer.create user now vd db)) ref
      = Resolver.latest_milestone db ref) /\
  (forall key take,
      find (fun t => take_id t =? key) (takes db) = Some take ->
      fst (TakeBindMilestoneViewSet.suggestions key
             (snd (TakeBindMilestoneSerializer.create user now vd db)))
      = fst (TakeBindMilestoneViewSet.suggestions key db)).
Proof.
  intros Hok.
  pose proof (db_ok_fields db Hok) as (_ & _ & _ & _ & H5 & _).
  set (db' := snd (TakeBindMilestoneSerializer.create user now vd db)).
  assert (H : exists t m rows,
             takes db' = takes db ++ [t] /\
             milestones db' = milestones db ++ [m] /\
             responses db' = responses db ++ rows /\
             take_id t = next_take db /\ milestone_take m = next_take db /\
             (milestone_copied_from m <> None \/ milestone_found m = None) /\
             (forall r, In r rows -> response_milestone r = next_milestone db)).
  { unfold db'.
    destruct (TakeBindMilestoneSerializer.latest_milestone db vd)
      as [source |] eqn:E.
    - rewrite (create_run_seeded user now vd db E).
      eexists _, _, _. cbn [snd takes milestones responses].
      repeat (split; [reflexivity |]). split; [left; discriminate |].
      intros r Hr. apply copied_rows_owner in Hr. tauto.
    - rewrite (create_run_empty user now vd db E).
      exists (mkTake (next_take db) user
                (TakeBindMilestoneSerializer.vd_article vd)
                (TakeBindMilestoneSerializer.vd_question vd)
                (TakeBindMilestoneSerializer.vd_removed_at vd)),
        (mkMilestone (next_milestone db) user (next_take db) None None now),
        [].
      cbn [snd takes milestones responses]. rewrite app_nil_r.
      repeat (split; [reflexivity |]). split; [right; reflexivity |].
      intros r []. }
  destruct H as (t & m & rows & Ht & Hms & Hrs & Htid & Hmt & Hm & Hrows).
  assert (Hflat : forall ref,
             Resolver.milestones_flatten db' ref
             = Resolver.milestones_flatten db ref)
    by (intros ref; eapply flatten_stable; eassumption).
  assert (Hlatest : forall ref,
             Resolver.latest_milestone db' ref
             = Resolver.latest_milestone db ref)
    by (intros ref; unfold Resolver.latest_milestone; rewrite Hflat;
        reflexivity).
  split; [exact Hlatest |].
  intros key take Hfind.
  unfold TakeBindMilestoneViewSet.suggestions,
    TakeBindMilestoneViewSet.get_object, bind, get, ret.
  rewrite Ht, (find_app_first _ _ [t] Hfind), Hfind, Hlatest.
  cbn [fst]. destruct (Resolver.latest_milestone db take) as [m0 |] eqn:E;
    [| reflexivity].
  do 2 f_equal. unfold Resolver.milestone_responses. rewrite Hrs.
  apply old_milestone_responses; [| exact Hrows].
  apply latest_milestone_in in E. unfold Resolver.milestones_flatten in E.
  apply in_flatten in E. destruct E as (x & _ & E).
  apply eligible_milestones_iff in E.
  eapply below_In; [exact H5 | tauto].
Qed.

Lemma create_take_keeps_suggestions_witness :
  db_ok Sample.db = true /\
  fst (TakeBindMilestoneViewSet.suggestions 1
         (snd (TakeBindMilestoneSerializer.create 3 100%Z
                 (TakeBindMilestoneSerializer.mkValidatedData 1 1 None)
                 Sample.db)))
  = fst (TakeBindMilestoneViewSet.suggestions 1 Sample.db).
Proof.
  split; [reflexivity |].
  apply (proj2 (@create_take_keeps_suggestions 3 100%Z
                  (TakeBindMilestoneSerializer.mkValidatedData 1 1 None)
                  Sample.db eq_refl) 1 (mkTake 1 1 1 1 None)).
  reflexivity.
Defined.

(** ** Renewal and the Resolver *)

Lemma same_key_same_row {R : Type} (id_of : R -> pk) (table : list R)
    (a b : R) :
  NoDup (map id_of table) -> In a table -> In b table ->
  id_of a = id_of b -> a = b.
Proof.
  intros Hnd Ha Hb Heq.
  pose proof (find_unique id_of table a Hnd Ha) as Fa.
  pose proof (find_unique id_of table b Hnd Hb) as Fb.
  rewrite Heq in Fa. congruence.
Qed.

Section RenewalVisible.

Variable milestone_is_valid :
  DB -> pk -> TakeBindMilestoneViewSet.RenewData -> bool.

(** X11.  After a successful renewal of a take, with take keys that are
    unique, the new milestone is a candidate of the Resolver for a
    reference take exactly when the renewed take has the reference's
    question and another article, the request carried a [found] marker and
    no [copied_from], and the sentence list was not empty. *)
Theorem renewed_milestone_candidate (user : pk) (now : datetime)
    (data : TakeBindMilestoneViewSet.RenewData) (key : pk) (db : DB)
    (take ref : Take) :
  db_ok db = true ->
  NoDup (map take_id (takes db)) ->
  find (fun t => take_id t =? key) (takes db) = Some take ->
  milestone_is_valid db (take_id take) data = true ->
  forallb (pk_exists sentence_id (sentences db))
    (TakeBindMilestoneViewSet.sentences_of data) = true ->
  In (mkMilestone (next_milestone db) user (take_id take)
        (TakeBindMilestoneViewSet.data_found data)
        (TakeBindMilestoneViewSet.data_copied_from data) now)
    (Resolver.milestones_flatten
       (snd (TakeBindMilestoneViewSet.renew_milestone milestone_is_valid user
               now data key db)) ref)
  <->
  take_question take = take_question ref /\
  take_article take <> take_article ref /\
  TakeBindMilestoneViewSet.data_copied_from data = None /\
  TakeBindMilestoneViewSet.data_found data <> None /\
  TakeBindMilestoneViewSet.sentences_of data <> [].
Proof.
  intros Hok Hnd Hfind Hvalid Hsent.
  pose proof (db_ok_fields db Hok) as (_ & _ & _ & _ & _ & _ & _ & H8).
  pose proof (find_some _ _ Hfind) as [Htake _].
  rewrite (@renew_milestone_run milestone_is_valid user now data key db take
             Hok Hfind Hvalid Hsent).
  cbn [snd]. unfold Resolver.milestones_flatten. rewrite in_flatten.
  split.
  - intros (t & Ht & Hm). apply related_takes_iff in Ht.
    apply eligible_milestones_iff in Hm.
    cbn [takes milestones responses milestone_take milestone_copied_from
         milestone_found milestone_id] in Ht, Hm.
    destruct Ht as (Ht & Hq & Ha).
    destruct Hm as (_ & Hid & Hc & Hf & r & Hr & Hrm).
    assert (t = take)
      by (symmetry; eapply same_key_same_row; eassumption).
    subst t. repeat (split; [assumption |]).
    intros Hnil. rewrite Hnil in Hr. cbn [map saved_rows] in Hr.
    rewrite app_nil_r in Hr.
    pose proof (below_In _ _ _ _ H8 Hr). lia.
  - intros (Hq & Ha & Hc & Hf & Hne). exists take. split.
    + apply related_takes_iff. cbn [takes]. tauto.
    + apply eligible_milestones_iff.
      cbn [takes milestones responses milestone_take milestone_copied_from
           milestone_found milestone_id].
      split; [apply in_or_app; right; left; reflexivity |].
      split; [reflexivity |]. split; [exact Hc |]. split; [exact Hf |].
      destruct (TakeBindMilestoneViewSet.sentences_of data) as [| s l];
        [contradiction |].
      cbn [map saved_rows].
      eexists. split; [apply in_or_app; right; left; reflexivity |].
      reflexivity.
Qed.

End RenewalVisible.

(** On the sample, user 1 renews take 1 (article 1, question 1) with a
    [found] marker and sentence 11: milestone 6 becomes a candidate for
    take 2 (article 2, question 1). *)
Lemma renewed_milestone_candidate_witness :
  In (mkMilestone 6 1 1 (Some 90%Z) None 100%Z)
    (Resolver.milestones_flatten
       (snd (TakeBindMilestoneViewSet.renew_milestone
               Sample.accept_milestone 1 100%Z
               (TakeBindMilestoneViewSet.mkRenewData (Some [11])
                  (Some 90%Z) None) 1 Sample.db))
       (mkTake 2 2 2 1 None)).
Proof.
  apply (proj2 (@renewed_milestone_candidate Sample.accept_milestone 1 100%Z
                  (TakeBindMilestoneViewSet.mkRenewData (Some [11])
                     (Some 90%Z) None) 1 Sample.db (mkTake 1 1 1 1 None)
                  (mkTake 2 2 2 1 None) eq_refl
                  ltac:(simpl; repeat constructor; simpl; intuition discriminate)
                  eq_refl eq_refl eq_refl)).
  simpl. repeat split; discriminate.
Defined.

(** ** Soft removal of a take *)

Lemma filter_map_comm {A : Type} (f : A -> bool) (g : A -> A) (l : list A) :
  (forall x, In x l -> f (g x) = f x) ->
  filter f (map g l) = map g (filter f l).
Proof.
  induction l as [| a l IH]; simpl; intros H; [reflexivity |].
  rewrite (H a (or_introl eq_refl)).
  rewrite IH by (intros x Hx; apply H; now right).
  destruct (f a); reflexivity.
Qed.

(** X12.  [perform_update] with the [remove] flag is a soft removal: with
    take keys that are unique and no change of article or question, the
    stored take gets [removed_at = now] and nothing is deleted; its
    milestones and responses stay, and the Resolver's candidates are
    those of before, for every reference take: a removed take is still a
    source of suggestions. *)
Theorem perform_update_remove (now : datetime) (instance : Take)
    (validated_data : TakeBindMilestoneViewSet.TakeData) (db : DB) :
  NoDup (map take_id (takes db)) ->
  In instance (takes db) ->
  TakeBindMilestoneViewSet.td_article validated_data = None ->
  TakeBindMilestoneViewSet.td_question validated_data = None ->
  exists t' db',
    TakeBindMilestoneViewSet.perform_update true now instance validated_data
      db = (Ok t', db') /\
    t' = mkTake (take_id instance) (take_user instance)
           (take_article instance) (take_question instance) (Some now) /\
    find (fun t => take_id t =? take_id instance) (takes db') = Some t' /\
    map take_id (takes db') = map take_id (takes db) /\
    milestones db' = milestones db /\
    responses db' = responses db /\
    forall ref,
      Resolver.milestones_flatten db' ref = Resolver.milestones_flatten db ref.
Proof.
  intros Hnd Hin Ha Hq.
  unfold TakeBindMilestoneViewSet.perform_update,
    TakeBindMilestoneViewSet.save_take.
  cbn [TakeBindMilestoneViewSet.td_article
       TakeBindMilestoneViewSet.td_question
       TakeBindMilestoneViewSet.td_removed_at].
  rewrite Ha, Hq.
  set (t' := mkTake (take_id instance) (take_user instance)
               (take_article instance) (take_question instance) (Some now)).
  set (g := fun t : Take => if take_id t =? take_id instance then t' else t).
  assert (Hg : forall t, In t (takes db) ->
                 take_id (g t) = take_id t /\
                 take_article (g t) = take_article t /\
                 take_question (g t) = take_question t).
  { intros t Ht. unfold g.
    destruct (Nat.eqb_spec (take_id t) (take_id instance)) as [Heq | _];
      [| tauto].
    assert (t = instance) by (eapply same_key_same_row; eassumption).
    subst t. repeat split. }
  eexists _, _. split; [reflexivity |]. split; [reflexivity |].
  cbn [takes milestones responses].
  split; [| split; [| split; [reflexivity | split; [reflexivity |]]]].
  - clear Hg. induction (takes db) as [| b l IH]; [destruct Hin |].
    cbn [map find].
    destruct (Nat.eqb_spec (take_id b) (take_id instance)) as [Heq | Hne].
    + replace (g b) with t'
        by (unfold g; rewrite (proj2 (Nat.eqb_eq _ _) Heq); reflexivity).
      cbn [take_id t']. rewrite Nat.eqb_refl. reflexivity.
    + apply Nat.eqb_neq in Hne.
      replace (g b) with b by (unfold g; rewrite Hne; reflexivity).
      rewrite Hne.
      inversion Hnd; subst. destruct Hin as [-> | Hin].
      * rewrite Nat.eqb_refl in Hne. discriminate.
      * apply IH; assumption.
  - rewrite map_map. apply map_ext_in. intros t Ht. apply Hg. exact Ht.
  - intros ref.
    unfold Resolver.milestones_flatten, Resolver.related_takes.
    cbn [takes].
    rewrite (filter_map_comm
               (fun t => negb (take_article t =? take_article ref)) g)
      by (intros x Hx; destruct (Hg x Hx) as (_ & -> & _); reflexivity).
    rewrite (filter_map_comm
               (fun t => take_question t =? take_question ref) g)
      by (intros x Hx; apply filter_In in Hx; destruct Hx as [Hx _];
          destruct (Hg x Hx) as (_ & _ & ->); reflexivity).
    rewrite map_map. f_equal. apply map_ext_in. intros x Hx.
    apply filter_In in Hx. destruct Hx as [Hx _].
    apply filter_In in Hx. destruct Hx as [Hx _].
    unfold Resolver.eligible_milestones, Resolver.take_milestones,
      Resolver.has_responses, Resolver.milestone_responses.
    cbn [milestones responses].
    destruct (Hg x Hx) as (-> & _). reflexivity.
Qed.

(** On the sample, take 2 is removed at time 200: the stored row carries
    the time and take 1 is still offered take 2's milestone 2. *)
Lemma perform_update_remove_witness :
  exists t' db',
    TakeBindMilestoneViewSet.perform_update true 200%Z (mkTake 2 2 2 1 None)
      (TakeBindMilestoneViewSet.mkTakeData None None None) Sample.db
    = (Ok t', db') /\
    t' = mkTake 2 2 2 1 (Some 200%Z) /\
    find (fun t => take_id t =? 2) (takes db') = Some t' /\
    map take_id (takes db') = map take_id (takes Sample.db) /\
    milestones db' = milestones Sample.db /\
    responses db' = responses Sample.db /\
    forall ref,
      Resolver.milestones_flatten db' ref
      = Resolver.milestones_flatten Sample.db ref.
Proof.
  apply (@perform_update_remove 200%Z (mkTake 2 2 2 1 None)
           (TakeBindMilestoneViewSet.mkTakeData None None None) Sample.db);
    try reflexivity.
  - simpl. repeat constructor; simpl; intuition discriminate.
  - simpl. tauto.
Defined.

(** ** Balance of the assignment *)

Section Balance.

Variable user_is_valid : DB -> UserViewSet.UserData -> bool.

(** X13.  A run of [create] that gets past the gate, the validation and the
    Balancer keeps the research's articles balanced: the chosen article
    ends with at most one profile more than any article of the research,
    and if before the run no article of the research had more than one
    profile above another, the same holds after it. *)
Theorem create_user_keeps_balance (data : UserViewSet.UserData) (db : DB)
    (target : Article) :
  db_ok db = true ->
  user_is_valid db data = true ->
  UserViewSet.target_article db
    (UserViewSet.research_filter db (UserViewSet.data_research data))
  = Some target ->
  UserViewSet.articles_filter
    (snd (UserViewSet.create user_is_valid data db))
    (UserViewSet.research_filter
       (snd (UserViewSet.create user_is_valid data db))
       (UserViewSet.data_research data))
  = UserViewSet.articles_filter db
      (UserViewSet.research_filter db (UserViewSet.data_research data)) /\
  (forall x,
      In x (UserViewSet.articles_filter db
              (UserViewSet.research_filter db
                 (UserViewSet.data_research data))) ->
      UserViewSet.profiles_count
        (snd (UserViewSet.create user_is_valid data db)) target
      <= S (UserViewSet.profiles_count
              (snd (UserViewSet.create user_is_valid data db)) x)) /\
  ((forall x y,
       In x (UserViewSet.articles_filter db
               (UserViewSet.research_filter db
                  (UserViewSet.data_research data))) ->
       In y (UserViewSet.articles_filter db
               (UserViewSet.research_filter db
                  (UserViewSet.data_research data))) ->
       UserViewSet.profiles_count db x
       <= S (UserViewSet.profiles_count db y)) ->
   forall x y,
     In x (UserViewSet.articles_filter db
             (UserViewSet.research_filter db
                (UserViewSet.data_research data))) ->
     In y (UserViewSet.articles_filter db
             (UserViewSet.research_filter db
                (UserViewSet.data_research data))) ->
     UserViewSet.profiles_count
       (snd (UserViewSet.create user_is_valid data db)) x
     <= S (UserViewSet.profiles_count
             (snd (UserViewSet.create user_is_valid data db)) y)).
Proof.
  intros Hok Hv Ht.
  rewrite (@create_run_assigned user_is_valid data db target Hok Hv Ht).
  cbn [snd].
  set (arts := UserViewSet.articles_filter db
                 (UserViewSet.research_filter db
                    (UserViewSet.data_research data))) in *.
  assert (Hcount : forall x,
             UserViewSet.profiles_count
               (mkDB (researches db) (articles db) (sentences db)
                  (users db
                   ++ [mkUser (next_user db) (UserViewSet.data_username data)])
                  (profiles db
                   ++ [mkProfile (next_profile db) (next_user db)
                         (Some (article_id target))])
                  (takes db) (milestones db) (responses db)
                  (S (next_user db)) (S (next_profile db)) (next_take db)
                  (next_milestone db) (next_response db)) x
             = if article_id x =? article_id target
               then S (UserViewSet.profiles_count db x)
               else UserViewSet.profiles_count db x).
  { intros x. unfold UserViewSet.profiles_count. cbn [profiles].
    rewrite filter_app, length_app. cbn [filter profile_article].
    rewrite (Nat.eqb_sym (article_id target) (article_id x)).
    destruct (article_id x =? article_id target); cbn [length]; lia. }
  assert (Hmin : forall x, In x arts ->
             UserViewSet.profiles_count db target
             <= UserViewSet.profiles_count db x).
  { intros x Hx. pose proof (target_article_first_min _ _ Ht)
      as (pre & post & Heq & Hpre & Hpost).
    fold arts in Heq. rewrite Heq in Hx. apply in_app_or in Hx.
    destruct Hx as [Hx | [<- | Hx]].
    - specialize (Hpre x Hx). lia.
    - lia.
    - apply Hpost. exact Hx. }
  split; [reflexivity |]. split.
  - intros x Hx.
    rewrite !Hcount, Nat.eqb_refl. specialize (Hmin x Hx).
    destruct (article_id x =? article_id target); lia.
  - intros Hbal x y Hx Hy. rewrite !Hcount.
    specialize (Hbal x y Hx Hy).
    pose proof (Hmin y Hy) as Hy'. pose proof (Hmin x Hx) as Hx'.
    destruct (Nat.eqb_spec (article_id x) (article_id target)) as [Ex | _];
      destruct (Nat.eqb_spec (article_id y) (article_id target))
        as [Ey | _]; try lia.
    assert (Hxt : UserViewSet.profiles_count db x
                  = UserViewSet.profiles_count db target)
      by (unfold UserViewSet.profiles_count; rewrite Ex; reflexivity).
    lia.
Qed.

(** X15.  When the request names a stored research but the user's fields
    are refused, [create] raises [ValidationError] and writes nothing. *)
Theorem create_user_refused (data : UserViewSet.UserData) (db : DB) (k : pk)
    (r : Research) :
  UserViewSet.data_research data = Some k ->
  In r (researches db) -> research_id r = k ->
  user_is_valid db data = false ->
  exists msg,
    UserViewSet.create user_is_valid data db
    = (Raise (PyExn "ValidationError" msg), db).
Proof.
  intros Hk Hr Hrk Hv.
  unfold UserViewSet.create. rewrite bind_get.
  destruct (Nat.eqb _ 0) eqn:E0.
  - apply length_0_eqb in E0. rewrite Hk in E0. simpl in E0.
    assert (Hin : In r (filter (fun r => research_id r =? k) (researches db)))
      by (apply filter_In; split; [exact Hr | apply Nat.eqb_eq; exact Hrk]).
    rewrite E0 in Hin. destruct Hin.
  - rewrite Hv. eexists. reflexivity.
Qed.

End Balance.

(** On the sample, research 1 has counts 2, 1, 1; after user 5 is created
    they are 2, 2, 1. *)
Lemma create_user_keeps_balance_witness :
  UserViewSet.profiles_count
    (snd (UserViewSet.create Sample.accept_user
            (UserViewSet.mkUserData (Some 1) "eve") Sample.db))
    (mkArticle 1 1)
  <= S (UserViewSet.profiles_count
          (snd (UserViewSet.create Sample.accept_user
                  (UserViewSet.mkUserData (Some 1) "eve") Sample.db))
          (mkArticle 3 1)).
Proof.
  apply (proj2 (proj2
    (@create_user_keeps_balance Sample.accept_user
       (UserViewSet.mkUserData (Some 1) "eve") Sample.db (mkArticle 2 1)
       eq_refl eq_refl eq_refl))).
  - intros x y Hx Hy. simpl in Hx, Hy.
    destruct Hx as [<- | [<- | [<- | []]]];
      destruct Hy as [<- | [<- | [<- | []]]]; vm_compute; lia.
  - simpl. tauto.
  - simpl. tauto.
Defined.

Lemma create_user_refused_witness :
  exists msg,
    UserViewSet.create Sample.refuse_user (UserViewSet.mkUserData (Some 1) "eve")
      Sample.db
    = (Raise (PyExn "ValidationError" msg), Sample.db).
Proof.
  apply (@create_user_refused Sample.refuse_user
           (UserViewSet.mkUserData (Some 1) "eve") Sample.db 1 (mkResearch 1));
    try reflexivity.
  simpl. tauto.
Defined.

(** ** The take of a copied response *)

Lemma copied_rows_take (user milestone : pk) (source : list Response) :
  forall start,
    map response_take (copied_rows user milestone start source)
    = map response_take source.
Proof.
  induction source as [| r rest IH]; intros start; simpl;
    [reflexivity | now rewrite IH].
Qed.

(** X14.  The responses that take creation copies keep the [take] of the
    source's responses: the loop sets [pk], [milestone] and [user] only.
    With responses that point to stored takes, no copy points to the new
    take that owns its milestone. *)
Theorem create_copies_keep_take (user : pk) (now : datetime)
    (vd : TakeBindMilestoneSerializer.ValidatedData) (db : DB)
    (source : Milestone) :
  db_ok db = true ->
  below response_take (next_take db) (responses db) = true ->
  TakeBindMilestoneSerializer.latest_milestone db vd = Some source ->
  exists take db' m,
    TakeBindMilestoneSerializer.create user now vd db = (Ok take, db') /\
    Resolver.take_milestones db' take = [m] /\
    map response_take (Resolver.milestone_responses db' m)
    = map response_take (Resolver.milestone_responses db source) /\
    forall r, In r (Resolver.milestone_responses db' m) ->
      response_take r <> take_id take.
Proof.
  intros Hok Hfk E.
  rewrite (create_run_seeded user now vd db E).
  eexists _, _,
    (mkMilestone (next_milestone db) user (next_take db)
       (milestone_found source) (Some (milestone_id source)) now).
  split; [reflexivity |].
  assert (Hnew :
            filter (fun r => response_milestone r =? next_milestone db)
              (responses db
               ++ copied_rows user (next_milestone db) (next_response db)
                    (Resolver.milestone_responses db source))
            = copied_rows user (next_milestone db) (next_response db)
                (Resolver.milestone_responses db source)).
  { apply new_milestone_responses; [exact Hok |].
    intros r Hr. apply copied_rows_owner in Hr. tauto. }
  unfold Resolver.take_milestones, Resolver.milestone_responses in *.
  cbn [milestones responses take_id milestone_id]. rewrite Hnew.
  split; [apply new_take_milestones; [exact Hok | reflexivity] |].
  split; [apply copied_rows_take |].
  intros r Hr.
  assert (Ht : In (response_take r)
                 (map response_take
                    (copied_rows user (next_milestone db) (next_response db)
                       (filter
                          (fun r => response_milestone r =? milestone_id source)
                          (responses db)))))
    by (apply in_map; exact Hr).
  rewrite copied_rows_take in Ht.
  apply in_map_iff in Ht. destruct Ht as (r0 & Heq & Hr0).
  apply filter_In in Hr0. destruct Hr0 as [Hr0 _].
  pose proof (below_In _ _ _ _ Hfk Hr0). lia.
Qed.

(** On the sample, the copies made for the new take 3 from milestone 5
    still point to take 1. *)
Lemma create_copies_keep_take_witness :
  exists take db' m,
    TakeBindMilestoneSerializer.create 3 100%Z
      (TakeBindMilestoneSerializer.mkValidatedData 1 1 None) Sample.db
    = (Ok take, db') /\
    Resolver.take_milestones db' take = [m] /\
    map response_take (Resolver.milestone_responses db' m)
    = map response_take
        (Resolver.milestone_responses Sample.db
           (mkMilestone 5 1 1 (Some 12%Z) None 8%Z)) /\
    forall r, In r (Resolver.milestone_responses db' m) ->
      response_take r <> take_id take.
Proof.
  apply (@create_copies_keep_take 3 100%Z
           (TakeBindMilestoneSerializer.mkValidatedData 1 1 None) Sample.db
           (mkMilestone 5 1 1 (Some 12%Z) None 8%Z)); reflexivity.
Defined.

(** ** The ways a user creation ends *)

Section CreationEnds.

Variable user_is_valid : DB -> UserViewSet.UserData -> bool.

(** X16.  On a sound database a run of [UserViewSet.create] ends in one of
    four ways: the 400 reply, a [ValidationError] of the user's fields,
    the [TypeError] of [reduce] on a research without articles, or the
    [TypeError] of [serializer.data], whose [profile] field iterates over
    the user's single profile.  The reply with the new user is never
    returned. *)
Theorem create_user_ends (data : UserViewSet.UserData) (db : DB) :
  db_ok db = true ->
  (fst (UserViewSet.create user_is_valid data db)
   = Ok (JsonResponse ["Select any research type."%string] 400) \/
   (exists msg,
       fst (UserViewSet.create user_is_valid data db)
       = Raise (PyExn "ValidationError" msg)) \/
   fst (UserViewSet.create user_is_valid data db)
   = Raise
       (PyExn "TypeError" "reduce() of empty sequence with no initial value") \/
   fst (UserViewSet.create user_is_valid data db)
   = Raise (PyExn "TypeError" "'Profile' object is not iterable")) /\
  forall u,
    fst (UserViewSet.create user_is_valid data db) <> Ok (HTTPResponse u).
Proof.
  intros Hok.
  destruct (UserViewSet.research_filter db (UserViewSet.data_research data))
    as [| r0 rs] eqn:Er.
  - rewrite (@create_run_400 user_is_valid data db Er). cbn [fst].
    split; [left; reflexivity | discriminate].
  - assert (Hres : UserViewSet.research_filter db
                     (UserViewSet.data_research data) <> [])
      by (rewrite Er; discriminate).
    destruct (@create_cases user_is_valid data db Hok Hres)
      as [[_ Hc] | [(_ & _ & Hc) | (target & _ & _ & Hc)]];
      rewrite Hc; cbn [fst]; (split; [| discriminate]).
    + right. left. eexists. reflexivity.
    + right. right. left. reflexivity.
    + right. right. right. reflexivity.
Qed.

End CreationEnds.

(** On the sample, the creation of user 5 for research 1 stores the user,
    assigns article 2 and ends in the [TypeError] of [serializer.data]. *)
Lemma create_user_ends_witness :
  fst (UserViewSet.create Sample.accept_user
         (UserViewSet.mkUserData (Some 1) "eve") Sample.db)
  = Raise (PyExn "TypeError" "'Profile' object is not iterable") /\
  forall u,
    fst (UserViewSet.create Sample.accept_user
           (UserViewSet.mkUserData (Some 1) "eve") Sample.db)
    <> Ok (HTTPResponse u).
Proof.
  split; [reflexivity |].
  exact (proj2 (@create_user_ends Sample.accept_user
                  (UserViewSet.mkUserData (Some 1) "eve") Sample.db eq_refl)).
Defined.
